(** * node-sqlite: the benchmark of [database.js], embedded in Rocq

    The development follows [src/database.js] (the better-sqlite3 variant):
    the storage handle ([initDatabase]), the result cache ([getCachedTest]),
    the timed workload ([runTest]) and the specs reporter ([getServerSpecs]).
    The workload of the older sqlite3 variant ([src/unnamed/part_000]) is
    the module [Sqlite3Variant].

    Conventions of the embedding:
    - a JavaScript number that can be [NaN] or infinite is a [JS.number];
      finite quantities (clock readings in seconds, durations) are exact
      rationals, [Date.now()] is an integer number of milliseconds;
    - the host (clock, random generator, JSON codec, file size) is a record
      [Host] of oracles, and the program state counts how many readings of
      the clock and of the generator were consumed;
    - the program is written in a state-and-exception monad [M]; [while]
      loops take fuel, and running out of fuel is the outcome [OutOfFuel];
    - every statement executed on the database is appended to [trace]. *)

From Stdlib Require Import ZArith QArith Qround List String Lia Bool.
From Stdlib Require Import DecimalString Lqa.
Import ListNotations.
Local Open Scope string_scope.
Local Open Scope list_scope.
Local Open Scope Z_scope.
#[local] Set Warnings "-register-all".

(** ** JavaScript numbers *)

Module JS.

Inductive number : Type :=
| Num (q : Q)
| Infinity
| NegInfinity
| NaN.

Definition Qltb (a b : Q) : bool :=
  (Qnum a * QDen b <? Qnum b * QDen a)%Z.

Definition signed_inf (negative : bool) : number :=
  if negative then NegInfinity else Infinity.

Definition Qneg (q : Q) : bool := (Qnum q <? 0)%Z.

(** [a * b]; the sign of a zero is not tracked. *)
Definition mul (a b : number) : number :=
  match a, b with
  | NaN, _ | _, NaN => NaN
  | Num x, Num y => Num (x * y)
  | Num x, Infinity | Infinity, Num x =>
      if Qeq_bool x 0 then NaN else signed_inf (Qneg x)
  | Num x, NegInfinity | NegInfinity, Num x =>
      if Qeq_bool x 0 then NaN else signed_inf (negb (Qneg x))
  | Infinity, Infinity | NegInfinity, NegInfinity => Infinity
  | Infinity, NegInfinity | NegInfinity, Infinity => NegInfinity
  end.

(** [a / b]: a finite quotient, [0/0 = NaN], [x/0 = +-Infinity]. *)
Definition div (a b : number) : number :=
  match a, b with
  | NaN, _ | _, NaN => NaN
  | Num x, Num y =>
      if Qeq_bool y 0
      then (if Qeq_bool x 0 then NaN else signed_inf (Qneg x))
      else Num (x / y)
  | Num _, Infinity | Num _, NegInfinity => Num 0
  | Infinity, Num y => signed_inf (Qneg y)
  | NegInfinity, Num y => signed_inf (negb (Qneg y))
  | _, _ => NaN
  end.

(** [Math.floor] and [Math.round] (halves go up) on a finite value. *)
Definition Qround_half_up (q : Q) : Z := Qfloor (q + (1 # 2)).

Definition Math_round (a : number) : number :=
  match a with
  | Num q => Num (inject_Z (Qround_half_up q))
  | other => other
  end.

Definition Math_floor (q : Q) : Z := Qfloor q.

(** [arr[k]] for an integer [k]: [undefined] (here [None]) out of range. *)
Definition index {A} (arr : list A) (k : Z) : option A :=
  if (k <? 0)%Z then None else nth_error arr (Z.to_nat k).

(** [arr.pop()]: the last element ([undefined] when there is none) and the
    array without it. *)
Definition pop {A} (arr : list A) : option A * list A :=
  match rev arr with
  | [] => (None, [])
  | x :: r => (Some x, rev r)
  end.

(** [arr.push(x)]. *)
Definition push {A} (arr : list A) (x : A) : list A := arr ++ [x].

(** [s.substring(from, to)] for [0 <= from <= to]. *)
Definition substring (from to : Z) (s : string) : string :=
  String.substring (Z.to_nat from) (Z.to_nat (to - from)) s.

(** The decimal text of an integer, as a template literal prints it. *)
Definition string_of_Z (z : Z) : string :=
  NilZero.string_of_int (Z.to_int z).

(** A parsed JSON document. *)
Inductive json : Type :=
| JNull
| JBool (b : bool)
| JNumber (q : Q)
| JString (s : string)
| JArray (items : list json)
| JObject (fields : list (string * json)).

End JS.
Import JS.

(** ** The database file *)

(** A row of [test_results_cache]. *)
Record CacheRow : Type := mkCacheRow {
  cache_id : Z;
  result : string;
  cache_timestamp : Z
}.

(** A row of [comments]. *)
Record Comment : Type := mkComment {
  id : Z;
  author : string;
  content : string;
  test_session : string;
  timestamp : Z
}.

(** The file [database.sqlite]: each table is absent ([None]) or holds its
    rows in insertion order; [*_seq] is the largest rowid the table ever had
    (AUTOINCREMENT's [sqlite_sequence]). *)
Record DbFile : Type := mkDbFile {
  test_results_cache : option (list CacheRow);
  cache_seq : Z;
  comments : option (list Comment);
  comments_seq : Z;
  indexes : list string
}.

Definition empty_file : DbFile :=
  {| test_results_cache := None; cache_seq := 0;
     comments := None; comments_seq := 0; indexes := [] |}.

Definition rows {A} (t : option (list A)) : list A :=
  match t with Some l => l | None => [] end.

(** [CREATE TABLE IF NOT EXISTS]. *)
Definition create_if_absent {A} (t : option (list A)) : option (list A) :=
  match t with Some l => Some l | None => Some [] end.

(** [CREATE INDEX IF NOT EXISTS]. *)
Definition add_index (name : string) (ix : list string) : list string :=
  if existsb (String.eqb name) ix then ix else ix ++ [name].

Definition max_rowid {A} (key : A -> Z) (l : list A) : Z :=
  fold_right (fun r m => Z.max (key r) m) 0 l.

(** The rowid AUTOINCREMENT gives to the next row. *)
Definition next_rowid {A} (key : A -> Z) (seq : Z) (l : list A) : Z :=
  Z.max seq (max_rowid key l) + 1.

(** [ORDER BY timestamp DESC LIMIT 1]; among equal timestamps the row with
    the largest rowid comes first, as a backward scan of the index gives. *)
Definition newer (a b : CacheRow) : bool :=
  (cache_timestamp b <? cache_timestamp a)
  || ((cache_timestamp b =? cache_timestamp a) && (cache_id b <? cache_id a)).

Fixpoint latest (l : list CacheRow) : option CacheRow :=
  match l with
  | [] => None
  | r :: l' =>
      match latest l' with
      | Some r' => if newer r' r then Some r' else Some r
      | None => Some r
      end
  end.

(** ** Results *)

Record WorkloadResult : Type := mkWorkloadResult {
  dbSizeInMb : number;
  totalOperations : Z;
  operationsPerSecond : number;
  writes : Z;
  writesPerSecond : number;
  reads : Z;
  readsPerSecond : number;
  updates : Z;
  updatesPerSecond : number;
  deletes : Z;
  deletesPerSecond : number;
  duration : number
}.

(** What [getCachedTest] returns: the object [runTest] built, or the value
    [JSON.parse] made of the cached text. *)
Inductive jsvalue : Type :=
| Object (r : WorkloadResult)
| Parsed (j : json).

(** ** Host, configuration, state *)

Record Host : Type := mkHost {
  clock : nat -> Z;                  (* the n-th [Date.now()], milliseconds *)
  random : nat -> Q;                 (* the n-th [Math.random()] *)
  toString36 : Q -> string;          (* [Number.prototype.toString(36)] *)
  JSON_parse : string -> option json;         (* [None]: SyntaxError *)
  JSON_stringify : WorkloadResult -> string;
  statSync_size : DbFile -> Z        (* [fs.statSync(databaseFile).size] *)
}.

(** The module constants of [database.js], lines 7-8. *)
Record Config : Type := mkConfig {
  maxCacheSeconds : Q;
  maxSecondsPerTest : Q
}.

Definition source_config : Config :=
  {| maxCacheSeconds := 300; maxSecondsPerTest := 3 |}.

(** A connection made by [new Database(databaseFile)], with the pragmas
    applied to it so far (newest first). *)
Record Connection : Type := mkConnection {
  conn_id : nat;
  pragmas : list string
}.

(** A statement executed on the database. *)
Inductive stmt : Type :=
| InsertComment (i : Z)
| SelectComment (i : Z)
| UpdateComment (i : Z)
| DeleteComment (i : Z)
| DeleteSession (tag : string)
| SelectCache
| DeleteCache
| InsertCache (i : Z).

Record State : Type := mkState {
  ticks : nat;                       (* calls of [Date.now()] so far *)
  draws : nat;                       (* calls of [Math.random()] so far *)
  db : option Connection;            (* the module variable [db] *)
  connections : list nat;            (* ids of the connections created, newest first *)
  file : DbFile;
  trace : list stmt                  (* statements executed, newest first *)
}.

(** A process that has just loaded the module, on a given file. *)
Definition start_on (f : DbFile) : State :=
  {| ticks := 0; draws := 0; db := None; connections := [];
     file := f; trace := [] |}.

Definition initial_state : State := start_on empty_file.

Inductive exn : Type :=
| TypeError (msg : string)
| SyntaxError
| SqliteError (msg : string).

Inductive outcome (A : Type) : Type :=
| Return (a : A) (s : State)
| Throw (e : exn) (s : State)
| OutOfFuel.
Arguments Return {A} a s.
Arguments Throw {A} e s.
Arguments OutOfFuel {A}.

Definition M (A : Type) : Type := State -> outcome A.

Definition ret {A} (a : A) : M A := fun s => Return a s.

Definition bind {A B} (m : M A) (k : A -> M B) : M B :=
  fun s =>
    match m s with
    | Return a s' => k a s'
    | Throw e s' => Throw e s'
    | OutOfFuel => OutOfFuel
    end.

Definition throw {A} (e : exn) : M A := fun s => Throw e s.

Notation "x <- m ;; k" := (bind m (fun x => k))
  (at level 61, m at next level, right associativity).
Notation "' pat <- m ;; k" := (bind m (fun x => match x with pat => k end))
  (at level 61, pat pattern, m at next level, right associativity).
Notation "m ;;; k" := (bind m (fun _ => k))
  (at level 61, right associativity).

Definition set_file (f : DbFile) (s : State) : State :=
  {| ticks := ticks s; draws := draws s; db := db s;
     connections := connections s; file := f; trace := trace s |}.

Definition log (e : stmt) (s : State) : State :=
  {| ticks := ticks s; draws := draws s; db := db s;
     connections := connections s; file := file s; trace := e :: trace s |}.

Definition tick (s : State) : State :=
  {| ticks := S (ticks s); draws := draws s; db := db s;
     connections := connections s; file := file s; trace := trace s |}.

Definition draw (s : State) : State :=
  {| ticks := ticks s; draws := S (draws s); db := db s;
     connections := connections s; file := file s; trace := trace s |}.

Definition set_db (c : Connection) (s : State) : State :=
  {| ticks := ticks s; draws := draws s; db := Some c;
     connections := connections s; file := file s; trace := trace s |}.

Definition add_connection (c : nat) (s : State) : State :=
  {| ticks := ticks s; draws := draws s; db := db s;
     connections := c :: connections s; file := file s; trace := trace s |}.

Definition with_cache (t : option (list CacheRow)) (seq : Z) (f : DbFile)
  : DbFile :=
  {| test_results_cache := t; cache_seq := seq;
     comments := comments f; comments_seq := comments_seq f;
     indexes := indexes f |}.

Definition with_comments (t : option (list Comment)) (seq : Z) (f : DbFile)
  : DbFile :=
  {| test_results_cache := test_results_cache f; cache_seq := cache_seq f;
     comments := t; comments_seq := seq; indexes := indexes f |}.

Definition with_indexes (ix : list string) (f : DbFile) : DbFile :=
  {| test_results_cache := test_results_cache f; cache_seq := cache_seq f;
     comments := comments f; comments_seq := comments_seq f; indexes := ix |}.

(** ** The program *)

Inductive table : Type := CacheT | CommentsT.

Definition table_name (t : table) : string :=
  match t with CacheT => "test_results_cache" | CommentsT => "comments" end.

Definition chunkSize : nat := 100.

Definition seconds (ms : Z) : Q := inject_Z ms / 1000.

Section Program.

Variable h : Host.
Variable cfg : Config.

(** *** Host calls *)

Definition Date_now : M Z :=
  fun s => Return (clock h (ticks s)) (tick s).

Definition Math_random : M Q :=
  fun s => Return (random h (draws s)) (draw s).

(** [Math.random().toString(36).substring(2, 2 + Math.floor(Math.random() * span) + base)]:
    the receiver is evaluated before the argument. *)
Definition random_string (span base : Z) : M string :=
  r1 <- Math_random ;;
  r2 <- Math_random ;;
  ret (substring 2 (2 + Math_floor (r2 * inject_Z span) + base)
         (toString36 h r1)).

(** *** The driver (better-sqlite3) *)

Definition no_such_table {A} (t : table) : M A :=
  throw (SqliteError (String.append "no such table: " (table_name t))).

Definition db_undefined {A} : M A :=
  throw (TypeError "Cannot read properties of undefined").

Definition cannot_bind : string :=
  "SQLite3 can only bind numbers, strings, bigints, buffers, and null".

(** A value that is not a number, string, bigint, buffer or null cannot be
    bound to a statement parameter: for [undefined] (here [None]) the driver
    throws a TypeError. *)
Definition bind_parameter (v : option Z) : M Z :=
  match v with
  | Some i => ret i
  | None => throw (TypeError cannot_bind)
  end.

(** [new Database(databaseFile)] *)
Definition new_Database : M Connection :=
  fun s =>
    let n := List.length (connections s) in
    Return {| conn_id := n; pragmas := [] |} (add_connection n s).

(** [db.pragma(p)] *)
Definition db_pragma (p : string) : M unit :=
  fun s =>
    match db s with
    | None => db_undefined s
    | Some c =>
        Return tt (set_db {| conn_id := conn_id c; pragmas := p :: pragmas c |} s)
    end.

(** [db.exec] of [CREATE TABLE IF NOT EXISTS] *)
Definition db_exec_create_table (t : table) : M unit :=
  fun s =>
    match db s with
    | None => db_undefined s
    | Some _ =>
        let f := file s in
        Return tt
          (set_file
             match t with
             | CacheT =>
                 with_cache (create_if_absent (test_results_cache f)) (cache_seq f) f
             | CommentsT =>
                 with_comments (create_if_absent (comments f)) (comments_seq f) f
             end s)
    end.

(** [db.exec] of [CREATE INDEX IF NOT EXISTS] *)
Definition db_exec_create_index (name : string) : M unit :=
  fun s =>
    match db s with
    | None => db_undefined s
    | Some _ =>
        Return tt (set_file (with_indexes (add_index name (indexes (file s))) (file s)) s)
    end.

Definition table_exists (t : table) (f : DbFile) : bool :=
  match t with
  | CacheT => match test_results_cache f with Some _ => true | None => false end
  | CommentsT => match comments f with Some _ => true | None => false end
  end.

(** [db.prepare(sql)] for a statement on table [t] *)
Definition db_prepare (t : table) : M unit :=
  fun s =>
    match db s with
    | None => db_undefined s
    | Some _ => if table_exists t (file s) then Return tt s else no_such_table t s
    end.

(** [db.transaction(body)()]: the file is rolled back when [body] throws. *)
Definition db_transaction {A} (body : M A) : M A :=
  fun s =>
    match body s with
    | Throw e s' => Throw e (set_file (file s) s')
    | r => r
    end.

(** [insertStmt.run(author, content, testSessionId, currentTimestamp)],
    giving [result.lastInsertRowid] *)
Definition insertStmt_run (a c tag : string) (ts : Z) : M Z :=
  fun s =>
    let f := file s in
    match comments f with
    | None => no_such_table CommentsT s
    | Some l =>
        let i := next_rowid id (comments_seq f) l in
        let row := {| id := i; author := a; content := c;
                      test_session := tag; timestamp := ts |} in
        Return i (log (InsertComment i)
                    (set_file (with_comments (Some (l ++ [row])) i f) s))
    end.

(** [selectStmt.get(id)] *)
Definition selectStmt_get (v : option Z) : M (option Comment) :=
  i <- bind_parameter v ;;
  fun s =>
    match comments (file s) with
    | None => no_such_table CommentsT s
    | Some l => Return (find (fun r => id r =? i) l) (log (SelectComment i) s)
    end.

Definition set_content (c : string) (r : Comment) : Comment :=
  {| id := id r; author := author r; content := c;
     test_session := test_session r; timestamp := timestamp r |}.

(** [updateStmt.run(newContent, id)] *)
Definition updateStmt_run (c : string) (v : option Z) : M unit :=
  i <- bind_parameter v ;;
  fun s =>
    let f := file s in
    match comments f with
    | None => no_such_table CommentsT s
    | Some l =>
        let l' := map (fun r => if id r =? i then set_content c r else r) l in
        Return tt (log (UpdateComment i)
                     (set_file (with_comments (Some l') (comments_seq f) f) s))
    end.

(** [deleteStmt.run(id)] *)
Definition deleteStmt_run (v : option Z) : M unit :=
  i <- bind_parameter v ;;
  fun s =>
    let f := file s in
    match comments f with
    | None => no_such_table CommentsT s
    | Some l =>
        let l' := filter (fun r => negb (id r =? i)) l in
        Return tt (log (DeleteComment i)
                     (set_file (with_comments (Some l') (comments_seq f) f) s))
    end.

(** [db.prepare('DELETE FROM comments WHERE test_session = ?').run(tag)] *)
Definition delete_session (tag : string) : M unit :=
  db_prepare CommentsT ;;;
  fun s =>
    let f := file s in
    match comments f with
    | None => no_such_table CommentsT s
    | Some l =>
        let l' := filter (fun r => negb (String.eqb (test_session r) tag)) l in
        Return tt (log (DeleteSession tag)
                     (set_file (with_comments (Some l') (comments_seq f) f) s))
    end.

(** [db.prepare('SELECT * FROM test_results_cache ORDER BY timestamp DESC LIMIT 1').get()] *)
Definition select_cached : M (option CacheRow) :=
  db_prepare CacheT ;;;
  fun s =>
    match test_results_cache (file s) with
    | None => no_such_table CacheT s
    | Some l => Return (latest l) (log SelectCache s)
    end.

(** [db.prepare('DELETE FROM test_results_cache').run()] *)
Definition delete_cache : M unit :=
  db_prepare CacheT ;;;
  fun s =>
    let f := file s in
    match test_results_cache f with
    | None => no_such_table CacheT s
    | Some _ =>
        Return tt (log DeleteCache (set_file (with_cache (Some []) (cache_seq f) f) s))
    end.

(** [.run(text, ts)] of the statement
    [INSERT INTO test_results_cache (result, timestamp) VALUES (?, ?)] *)
Definition insert_cache_run (text : string) (ts : Z) : M unit :=
  fun s =>
    let f := file s in
    match test_results_cache f with
    | None => no_such_table CacheT s
    | Some l =>
        let i := next_rowid cache_id (cache_seq f) l in
        let row := {| cache_id := i; result := text; cache_timestamp := ts |} in
        Return tt (log (InsertCache i)
                     (set_file (with_cache (Some (l ++ [row])) i f) s))
    end.

(** *** [initDatabase], lines 10-51 *)

Definition initDatabase : M unit :=
  c <- new_Database ;;
  (fun s => Return tt (set_db c s)) ;;;
  db_pragma "journal_mode = WAL" ;;;
  db_pragma "cache_size = -25000" ;;;
  db_pragma "synchronous = NORMAL" ;;;
  db_pragma "temp_store = MEMORY" ;;;
  db_pragma "mmap_size = 1000000000" ;;;
  db_pragma "foreign_keys = true" ;;;
  db_pragma "busy_timeout = 5000" ;;;
  db_pragma "auto_vacuum = INCREMENTAL" ;;;
  db_exec_create_table CacheT ;;;
  db_exec_create_index "idx_test_results_cache_timestamp" ;;;
  db_exec_create_table CommentsT ;;;
  db_exec_create_index "idx_comments_timestamp".

(** *** [runTest], lines 87-176 *)

Definition maxDuration : Q := maxSecondsPerTest cfg.

(** The body of the transaction, lines 105-111: [n] iterations remain. *)
Fixpoint insert_chunk (n : nat) (testSessionId : string) (currentTimestamp : Z)
    (newRecords : list Z) (writes : Z) : M (list Z * Z) :=
  match n with
  | O => ret (newRecords, writes)
  | S n' =>
      author <- random_string 16 5 ;;
      content <- random_string 91 10 ;;
      i <- insertStmt_run author content testSessionId currentTimestamp ;;
      insert_chunk n' testSessionId currentTimestamp (push newRecords i) (writes + 1)
  end.

(** The write loop, lines 103-113. *)
Fixpoint write_loop (fuel : nat) (writeStart : Q) (testSessionId : string)
    (currentTimestamp : Z) (newRecords : list Z) (writes : Z)
  : M (list Z * Z) :=
  match fuel with
  | O => fun _ => OutOfFuel
  | S fuel' =>
      now <- Date_now ;;
      if Qltb (seconds now - writeStart) maxDuration then
        ' (newRecords', writes') <-
          db_transaction
            (insert_chunk chunkSize testSessionId currentTimestamp newRecords writes) ;;
        write_loop fuel' writeStart testSessionId currentTimestamp newRecords' writes'
      else ret (newRecords, writes)
  end.

(** [newRecords[Math.floor(Math.random() * newRecords.length)]] *)
Definition pick (newRecords : list Z) : M (option Z) :=
  r <- Math_random ;;
  ret (index newRecords
         (Math_floor (r * inject_Z (Z.of_nat (List.length newRecords))))).

(** The read loop, lines 121-126. *)
Fixpoint read_loop (fuel : nat) (readStart : Q) (newRecords : list Z)
    (reads : Z) (readDuration : Q) : M (Z * Q) :=
  match fuel with
  | O => fun _ => OutOfFuel
  | S fuel' =>
      if Qltb readDuration maxDuration then
        i <- pick newRecords ;;
        selectStmt_get i ;;;
        now <- Date_now ;;
        read_loop fuel' readStart newRecords (reads + 1) (seconds now - readStart)
      else ret (reads, readDuration)
  end.

(** The update loop, lines 133-139. *)
Fixpoint update_loop (fuel : nat) (updateStart : Q) (newRecords : list Z)
    (updates : Z) (updateDuration : Q) : M (Z * Q) :=
  match fuel with
  | O => fun _ => OutOfFuel
  | S fuel' =>
      if Qltb updateDuration maxDuration then
        i <- pick newRecords ;;
        newContent <- random_string 91 10 ;;
        updateStmt_run newContent i ;;;
        now <- Date_now ;;
        update_loop fuel' updateStart newRecords (updates + 1)
          (seconds now - updateStart)
      else ret (updates, updateDuration)
  end.

(** The delete loop, lines 146-151; it also gives back what is left of
    [newRecords]. *)
Fixpoint delete_loop (fuel : nat) (deleteStart : Q) (newRecords : list Z)
    (deletes : Z) (deleteDuration : Q) : M (Z * Q * list Z) :=
  match fuel with
  | O => fun _ => OutOfFuel
  | S fuel' =>
      if Qltb deleteDuration maxDuration
         && (0 <? Z.of_nat (List.length newRecords))
      then
        let (i, newRecords') := pop newRecords in
        deleteStmt_run i ;;;
        now <- Date_now ;;
        delete_loop fuel' deleteStart newRecords' (deletes + 1)
          (seconds now - deleteStart)
      else ret (deletes, deleteDuration, newRecords)
  end.

(** [Math.round(count / elapsed)] *)
Definition per_second (count : Z) (elapsed : Q) : number :=
  Math_round (div (Num (inject_Z count)) (Num elapsed)).

(** [Math.round(x * 100) / 100] *)
Definition round2 (x : number) : number :=
  div (Math_round (mul x (Num 100))) (Num 100).

Definition session_tag (ms : Z) : string :=
  String.append "test_" (string_of_Z ms).

Definition runTest (fuel : nat) : M WorkloadResult :=
  now <- Date_now ;;
  let testSessionId := session_tag now in
  now <- Date_now ;;
  let currentTimestamp := Math_floor (seconds now) in
  (* Prepare statements *)
  db_prepare CommentsT ;;;
  db_prepare CommentsT ;;;
  db_prepare CommentsT ;;;
  db_prepare CommentsT ;;;
  (* Write test *)
  now <- Date_now ;;
  let writeStart := seconds now in
  ' (newRecords, writes) <-
    write_loop fuel writeStart testSessionId currentTimestamp [] 0 ;;
  now <- Date_now ;;
  let writeTime := (seconds now - writeStart)%Q in
  let writesPerSecond := per_second writes writeTime in
  (* Read test *)
  now <- Date_now ;;
  let readStart := seconds now in
  ' (reads, readDuration) <- read_loop fuel readStart newRecords 0 0%Q ;;
  let readsPerSecond := per_second reads readDuration in
  (* Update test *)
  now <- Date_now ;;
  let updateStart := seconds now in
  ' (updates, updateDuration) <- update_loop fuel updateStart newRecords 0 0%Q ;;
  let updatesPerSecond := per_second updates updateDuration in
  (* Delete test *)
  now <- Date_now ;;
  let deleteStart := seconds now in
  ' (deletes, deleteDuration, _) <- delete_loop fuel deleteStart newRecords 0 0%Q ;;
  let deletesPerSecond := per_second deletes deleteDuration in
  (* Clean up remaining test data *)
  delete_session testSessionId ;;;
  size <- (fun s => Return (statSync_size h (file s)) s) ;;
  let dbSizeInMb :=
    round2 (div (Num (inject_Z size)) (Num (inject_Z (1024 * 1024)))) in
  let totalOperations := writes + reads + updates + deletes in
  let operationsPerSecond :=
    Math_round (div (Num (inject_Z totalOperations)) (Num (maxDuration * 4))) in
  now <- Date_now ;;
  ret {| dbSizeInMb := dbSizeInMb;
         totalOperations := totalOperations;
         operationsPerSecond := operationsPerSecond;
         writes := writes;
         writesPerSecond := writesPerSecond;
         reads := reads;
         readsPerSecond := readsPerSecond;
         updates := updates;
         updatesPerSecond := updatesPerSecond;
         deletes := deletes;
         deletesPerSecond := deletesPerSecond;
         duration := round2 (Num (seconds now - writeStart)) |}.

(** *** [getCachedTest], lines 63-85 *)

(** Lines 73-81: the path taken when no fresh cached result exists. *)
Definition refresh (fuel : nat) : M jsvalue :=
  testResult <- runTest fuel ;;
  delete_cache ;;;
  db_prepare CacheT ;;;
  let text := JSON_stringify h testResult in
  now <- Date_now ;;
  insert_cache_run text (Math_floor (seconds now)) ;;;
  ret (Object testResult).

Definition getCachedTest (fuel : nat) : M jsvalue :=
  initDatabase ;;;
  cachedResult <- select_cached ;;
  match cachedResult with
  | Some row =>
      now <- Date_now ;;
      if Qltb (seconds now - inject_Z (cache_timestamp row)) (maxCacheSeconds cfg)
      then
        match JSON_parse h (result row) with
        | Some v => ret (Parsed v)
        | None => throw SyntaxError
        end
      else refresh fuel
  | None => refresh fuel
  end.

End Program.

(** * The specs reporter *)

(** What the [os] module answers during one call of [getServerSpecs]. *)
Record OS : Type := mkOS {
  os_cpus : list string;             (* the [model] of each logical CPU *)
  os_platform : string;
  os_arch : string;
  os_release : string;
  os_totalmem : Z;                   (* bytes *)
  os_freemem : Z;                    (* bytes *)
  os_loadavg : Q                     (* [os.loadavg()[0]] *)
}.

(** A value of the mapping: a string, or the template literal
    [`${n}${unit}`] of a number. *)
Inductive display : Type :=
| Text (s : string)
| Quantity (n : number) (unit : string).

Record ServerSpecs : Type := mkServerSpecs {
  vCPUs : Z;
  CPU_model : string;
  Platform : string;
  Total_RAM : display;
  CPU_usage : display;
  Memory_usage : display
}.

(** [x || 'Unknown'] for a string that may be [undefined]: the empty string
    is falsy too. *)
Definition or_Unknown (x : option string) : string :=
  match x with
  | Some m => if String.eqb m "" then "Unknown" else m
  | None => "Unknown"
  end.

(** [Math.round(x * 1000) / 10] *)
Definition permille (x : number) : number :=
  div (Math_round (mul x (Num 1000))) (Num 10).

(** [getServerSpecs], lines 178-195. *)
Definition getServerSpecs (os : OS) : ServerSpecs :=
  let length := Z.of_nat (List.length (os_cpus os)) in
  let cpuUsage := div (Num (os_loadavg os)) (Num (inject_Z length)) in
  let usedMemory := os_totalmem os - os_freemem os in
  {| vCPUs := length;
     CPU_model := or_Unknown (nth_error (os_cpus os) 0);
     Platform :=
       String.append (os_platform os)
         (String.append ", "
            (String.append (os_arch os)
               (String.append ", " (os_release os))));
     Total_RAM :=
       Quantity
         (Math_round
            (div (Num (inject_Z (os_totalmem os)))
               (Num (inject_Z (1024 * 1024 * 1024)))))
         "GB";
     CPU_usage := Quantity (permille cpuUsage) "%";
     Memory_usage :=
       Quantity
         (permille (div (Num (inject_Z usedMemory))
                      (Num (inject_Z (os_totalmem os)))))
         "%" |}.

(** * Vocabulary of the statements *)

(** ** Outcomes *)

(** The state a call ends in, when it ends. *)
Definition final_state {A} (o : outcome A) : option State :=
  match o with
  | Return _ s => Some s
  | Throw _ s => Some s
  | OutOfFuel => None
  end.

Definition returned {A} (o : outcome A) : option A :=
  match o with
  | Return a _ => Some a
  | _ => None
  end.

(** ** The state an [initDatabase] call leaves *)

Definition init_pragmas : list string :=
  [ "auto_vacuum = INCREMENTAL"; "busy_timeout = 5000"; "foreign_keys = true";
    "mmap_size = 1000000000"; "temp_store = MEMORY"; "synchronous = NORMAL";
    "cache_size = -25000"; "journal_mode = WAL" ].

Definition init_file (f : DbFile) : DbFile :=
  {| test_results_cache := create_if_absent (test_results_cache f);
     cache_seq := cache_seq f;
     comments := create_if_absent (comments f);
     comments_seq := comments_seq f;
     indexes := add_index "idx_comments_timestamp"
                  (add_index "idx_test_results_cache_timestamp" (indexes f)) |}.

Definition after_init (s : State) : State :=
  {| ticks := ticks s; draws := draws s;
     db := Some {| conn_id := List.length (connections s);
                   pragmas := init_pragmas |};
     connections := List.length (connections s) :: connections s;
     file := init_file (file s);
     trace := trace s |}.

(** ** The cache *)

(** The row [SELECT ... ORDER BY timestamp DESC LIMIT 1] finds. *)
Definition cached_row (s : State) : option CacheRow :=
  latest (rows (test_results_cache (file s))).

(** The number of rows of the cache table. *)
Definition cache_size (s : State) : nat :=
  List.length (rows (test_results_cache (file s))).

(** The state after [select_cached] in [getCachedTest]. *)
Definition after_select (s : State) : State := log SelectCache (after_init s).

(** [Date.now() / 1000 - cachedResult.timestamp], at the reading of the
    clock that [getCachedTest] makes from [s]. *)
Definition age (h : Host) (s : State) (row : CacheRow) : Q :=
  seconds (clock h (ticks s)) - inject_Z (cache_timestamp row).

(** The age test of line 69, at clock reading [now] (milliseconds). *)
Definition is_fresh (cfg : Config) (now : Z) (row : CacheRow) : bool :=
  Qltb (seconds now - inject_Z (cache_timestamp row)) (maxCacheSeconds cfg).

(** [run_start h cfg s s0]: from [s], [getCachedTest] finds no cached row, or
    one that is not fresh, and the workload starts in [s0]. *)
Inductive run_start (h : Host) (cfg : Config) (s : State) : State -> Prop :=
| start_empty :
    cached_row s = None -> run_start h cfg s (after_select s)
| start_stale row :
    cached_row s = Some row ->
    (maxCacheSeconds cfg <= age h s row)%Q ->
    run_start h cfg s (tick (after_select s)).

(** The row lines 76-79 write for result [r], from the state [s] in which
    [runTest] ended. *)
Definition stored_row (h : Host) (r : WorkloadResult) (s : State) : CacheRow :=
  {| cache_id := next_rowid cache_id (cache_seq (file s)) [];
     result := JSON_stringify h r;
     cache_timestamp := Math_floor (seconds (clock h (ticks s))) |}.

(** The state lines 76-79 leave. *)
Definition store_result (h : Host) (r : WorkloadResult) (s : State) : State :=
  let row := stored_row h r s in
  {| ticks := S (ticks s); draws := draws s; db := db s;
     connections := connections s;
     file := with_cache (Some [row]) (cache_id row) (file s);
     trace := InsertCache (cache_id row) :: DeleteCache :: trace s |}.

(** [after_calls h cfg s s']: the process goes from [s] to [s'] by a sequence
    of calls of [getCachedTest], each of which returned or threw. *)
Inductive after_calls (h : Host) (cfg : Config) : State -> State -> Prop :=
| calls_none s : after_calls h cfg s s
| calls_more s fuel s1 s2 :
    final_state (getCachedTest h cfg fuel s) = Some s1 ->
    after_calls h cfg s1 s2 ->
    after_calls h cfg s s2.

(** ** The workload *)

(** [known nr s]: the identifiers of [nr] are distinct rowids that the
    comments table has already given out. *)
Definition known (nr : list Z) (s : State) : Prop :=
  NoDup nr /\ forall x, In x nr -> x <= comments_seq (file s).

(** [frame s s']: the handle, the connections and the cache table are those
    of [s], and the comments table is still there if it was. *)
Definition frame (s s' : State) : Prop :=
  db s' = db s /\ connections s' = connections s
  /\ test_results_cache (file s') = test_results_cache (file s)
  /\ cache_seq (file s') = cache_seq (file s)
  /\ (comments (file s) <> None -> comments (file s') <> None).

(** [m] keeps the frame, whether it returns or throws. *)
Definition stable {A} (m : M A) : Prop :=
  forall s,
    match m s with
    | Return _ s' => frame s s'
    | Throw _ s' => frame s s'
    | OutOfFuel => True
    end.

(** ** Assumptions on the host, for termination *)

(** [Math.random()] is in [[0, 1)]. *)
Definition random_in_range (h : Host) : Prop :=
  forall i, (0 <= random h i)%Q /\ (random h i < 1)%Q.

(** The clock does not go back. *)
Definition clock_monotone (h : Host) : Prop :=
  forall i j, (i <= j)%nat -> clock h i <= clock h j.

(** The clock passes every instant (in seconds). *)
Definition clock_unbounded (h : Host) : Prop :=
  forall q : Q, exists n, (q <= seconds (clock h n))%Q.

(** Two consecutive readings of the clock are less than the budget apart. *)
Definition clock_steps_below_budget (h : Host) (cfg : Config) : Prop :=
  forall i,
    (seconds (clock h (S i)) - seconds (clock h i) < maxSecondsPerTest cfg)%Q.

(** ** Instances: hosts and configurations *)

(** Every reading of the clock is one second after the one before. *)
Definition host_1s : Host :=
  {| clock := fun n => 1000 * Z.of_nat n;
     random := fun n => (Z.of_nat (n mod 7) # 7)%Q;
     toString36 := fun _ => "0.k3j9x2m8q1w7e5r4t6y0u";
     JSON_parse := fun text => Some (JString text);
     JSON_stringify := fun r => JS.string_of_Z (totalOperations r);
     statSync_size := fun _ => 409600 |}.

(** A clock that is read three times at 0 ms and then jumps by at least the
    three seconds of the budget. *)
Definition host_jump : Host :=
  {| clock := fun n => if (n <? 3)%nat then 0 else 3000 + Z.of_nat n;
     random := random host_1s;
     toString36 := toString36 host_1s;
     JSON_parse := JSON_parse host_1s;
     JSON_stringify := JSON_stringify host_1s;
     statSync_size := statSync_size host_1s |}.

(** A clock that advances by one millisecond at every reading. *)
Definition host_1ms : Host :=
  {| clock := fun n => Z.of_nat n;
     random := random host_1s;
     toString36 := toString36 host_1s;
     JSON_parse := JSON_parse host_1s;
     JSON_stringify := JSON_stringify host_1s;
     statSync_size := statSync_size host_1s |}.

(** A budget of half a millisecond. *)
Definition half_ms_budget : Config :=
  {| maxCacheSeconds := 300; maxSecondsPerTest := 1 # 2000 |}.

(** A budget of zero. *)
Definition zero_budget : Config :=
  {| maxCacheSeconds := 300; maxSecondsPerTest := 0 |}.

(** ** Instances: states *)

(** A process that has opened the database of a new file. *)
Definition ready_state : State := after_init initial_state.

(** The state in which its write loop is entered: three readings of the
    clock were made, the third one is [writeStart]. *)
Definition write_entry : State := tick (tick (tick ready_state)).

(** A process on a file whose cache table holds one row, written at
    second 0 with payload ["209"]. *)
Definition cached_file : DbFile :=
  {| test_results_cache :=
       Some [ {| cache_id := 1; result := "209"; cache_timestamp := 0 |} ];
     cache_seq := 1;
     comments := Some [];
     comments_seq := 200;
     indexes := [] |}.

Definition cached_state : State := start_on cached_file.

(** The same, when every reading of the clock is past second 300. *)
Definition stale_state : State :=
  {| ticks := 301; draws := 0; db := None; connections := [];
     file := cached_file; trace := [] |}.

(** The first call of a process on an empty file, with [host_1s] and 50
    units of fuel: the state it ends in and the result it returns. *)
Definition after_first_call : option State :=
  final_state (getCachedTest host_1s source_config 50 initial_state).

Definition state_after_first_call : State :=
  Eval vm_compute in
    match after_first_call with Some s => s | None => initial_state end.

Definition result_of_first_call : WorkloadResult :=
  Eval vm_compute in
    match returned (getCachedTest host_1s source_config 50 initial_state) with
    | Some (Object r) => r
    | _ => mkWorkloadResult NaN 0 NaN 0 NaN 0 NaN 0 NaN 0 NaN NaN
    end.

(** The run of [runTest] from [ready_state] with [host_1s]. *)
Definition result_of_first_run : WorkloadResult :=
  Eval vm_compute in
    match returned (runTest host_1s source_config 50 ready_state) with
    | Some r => r
    | None => mkWorkloadResult NaN 0 NaN 0 NaN 0 NaN 0 NaN 0 NaN NaN
    end.

Definition state_after_first_run : State :=
  Eval vm_compute in
    match final_state (runTest host_1s source_config 50 ready_state) with
    | Some s => s
    | None => initial_state
    end.

(** Its write loop. *)
Definition ids_of_first_run : list Z :=
  Eval vm_compute in
    match returned (write_loop host_1s source_config 50 (seconds 2000)
                      "test_0" 1 [] 0 write_entry) with
    | Some (nr, _) => nr
    | None => []
    end.

Definition state_after_first_write : State :=
  Eval vm_compute in
    match final_state (write_loop host_1s source_config 50 (seconds 2000)
                         "test_0" 1 [] 0 write_entry) with
    | Some s => s
    | None => initial_state
    end.

(** ** Instances: machines of the specs reporter *)

(** One CPU and a one-minute load average of 2. *)
Definition busy_os : OS :=
  {| os_cpus := ["Example CPU @ 2.00GHz"];
     os_platform := "linux"; os_arch := "x64"; os_release := "6.1.0";
     os_totalmem := 8589934592; os_freemem := 2147483648;
     os_loadavg := 2 |}.

(** The same machine a moment later: other load, other free memory. *)
Definition busy_os_later : OS :=
  {| os_cpus := ["Example CPU @ 2.00GHz"];
     os_platform := "linux"; os_arch := "x64"; os_release := "6.1.0";
     os_totalmem := 8589934592; os_freemem := 1073741824;
     os_loadavg := 1 # 4 |}.

(** ** The comments table during a run *)

(** The largest rowid the comments table can have given out: what
    AUTOINCREMENT starts from. *)
Definition high_water (f : DbFile) : Z :=
  Z.max (comments_seq f) (max_rowid id (rows (comments f))).

(** [n] consecutive integers from [start]. *)
Definition Zseq (start : Z) (n : nat) : list Z :=
  map (fun k => start + Z.of_nat k) (seq 0 n).

(** [own_rows tag l s]: the comments table is [l] followed by rows of the
    session [tag] whose rowids are above those of [l]. *)
Definition own_rows (tag : string) (l : list Comment) (s : State) : Prop :=
  exists added,
    comments (file s) = Some (l ++ added)
    /\ Forall (fun r => test_session r = tag /\ max_rowid id l < id r) added.

(** The rows of [l] that do not carry [tag]: what line 155 keeps. *)
Definition other_sessions (tag : string) (l : list Comment) : list Comment :=
  filter (fun r => negb (String.eqb (test_session r) tag)) l.


(** ** Instances: a table that already holds rows of another session *)

Definition seeded_rows : list Comment :=
  [ {| id := 5; author := "ann"; content := "first";
       test_session := "test_old"; timestamp := 10 |};
    {| id := 7; author := "bob"; content := "second";
       test_session := "test_old"; timestamp := 11 |} ].

Definition seeded_file : DbFile :=
  {| test_results_cache := Some []; cache_seq := 0;
     comments := Some seeded_rows; comments_seq := 9;
     indexes := [] |}.

Definition seeded_state : State := after_init (start_on seeded_file).

Definition result_of_seeded_run : WorkloadResult :=
  Eval vm_compute in
    match returned (runTest host_1s source_config 50 seeded_state) with
    | Some r => r
    | None => mkWorkloadResult NaN 0 NaN 0 NaN 0 NaN 0 NaN 0 NaN NaN
    end.

Definition state_after_seeded_run : State :=
  Eval vm_compute in
    match final_state (runTest host_1s source_config 50 seeded_state) with
    | Some s => s
    | None => initial_state
    end.


(** ** Instances: a call that throws, a machine without CPUs *)

(** The first reading of the clock is at second 400, so a row written at
    second 0 is stale; the next three readings are the same and the fifth
    jumps past the budget, so the write phase of the run is empty. *)
Definition host_stale_jump : Host :=
  {| clock := fun n => if (n <? 4)%nat then 400000 else 404000 + Z.of_nat n;
     random := random host_1s;
     toString36 := toString36 host_1s;
     JSON_parse := JSON_parse host_1s;
     JSON_stringify := JSON_stringify host_1s;
     statSync_size := statSync_size host_1s |}.

Definition state_after_failed_call : State :=
  Eval vm_compute in
    match final_state (getCachedTest host_stale_jump source_config 50 cached_state) with
    | Some s => s
    | None => initial_state
    end.

(** [os.cpus()] is empty, as on hosts where the CPU list is not readable. *)
Definition headless_os : OS :=
  {| os_cpus := [];
     os_platform := "linux"; os_arch := "arm64"; os_release := "5.15.0";
     os_totalmem := 402653184; os_freemem := 134217728;
     os_loadavg := 3 # 2 |}.


(** * The sqlite3 variant of [runTest] ([src/unnamed/part_000])

    The older variant of the module runs on the asynchronous [sqlite]
    wrapper. A request awaits every call in turn, so the run is the same
    sequence of steps as in a synchronous program. What the environment
    decides, besides the [Host], is in [Engine]: which calls of [stmt.run]
    are rejected (the [catch] of lines 81-83 counts them), and what
    [sort] with the random comparator of line 99 makes of an array. Only
    the statements that [database.js] has too are recorded in [trace]. *)

Module Sqlite3Variant.

Record Engine : Type := mkEngine {
  rejects : Z -> bool;                       (* is the n-th [stmt.run] rejected *)
  sort_random : nat -> list Z -> list Z * nat
    (* [arr.sort(() => 0.5 - Math.random())] from a position of the
       generator: the array it leaves and the numbers it drew *)
}.

Record Result : Type := mkResult {
  dbSizeInMb : number;
  failureRate : number;
  reads : Z;
  readsPerSecond : number;
  total : Z;
  writes : Z;
  writesPerSecond : number;
  writeTime : number;
  duration : number
}.

Definition maxDuration : Z := 5000.

Definition chunkSize : nat := 10.

Definition draw_n (n : nat) (s : State) : State := Nat.iter n draw s.

Section Program.

Variable h : Host.
Variable e : Engine.

(** [Math.random().toString(36).substring(7)] *)
Definition random_tail : M string :=
  r <- Math_random h ;;
  let text := toString36 h r in
  ret (String.substring 7 (String.length text - 7) text).

(** Lines 67-73: [n] values remain to be pushed. *)
Fixpoint make_values (n : nat) (values : list (string * string))
  : M (list (string * string)) :=
  match n with
  | O => ret values
  | S n' =>
      author <- random_tail ;;
      content <- random_tail ;;
      make_values n' (push values (author, content))
  end.

(** [db.run('BEGIN TRANSACTION')], [db.run('COMMIT')] *)
Definition db_run_control : M unit :=
  fun s => match db s with None => db_undefined s | Some _ => Return tt s end.

(** [await stmt.run(...)] inside the [try] of lines 77-83: [Some lastID],
    or [None] when the call is rejected and the [catch] is taken. *)
Definition try_stmt_run (attempt : Z) (a c tag : string) (ts : Z)
  : M (option Z) :=
  fun s =>
    if rejects e attempt then Return None s
    else
      match insertStmt_run a c tag ts s with
      | Return i s' => Return (Some i) s'
      | Throw _ s' => Return None s'
      | OutOfFuel => OutOfFuel
      end.

(** The [for ... of values] of lines 76-84. *)
Fixpoint insert_values (values : list (string * string)) (tag : string)
    (ts : Z) (newRecords : list Z) (writes failures : Z)
  : M (list Z * Z * Z) :=
  match values with
  | [] => ret (newRecords, writes, failures)
  | value :: values' =>
      result <- try_stmt_run (writes + failures) (fst value) (snd value) tag ts ;;
      match result with
      | Some lastID =>
          insert_values values' tag ts (push newRecords lastID) (writes + 1) failures
      | None =>
          insert_values values' tag ts newRecords writes (failures + 1)
      end
  end.

(** The write loop, lines 66-90. *)
Fixpoint write_loop (fuel : nat) (startTime : Z) (tag : string) (ts : Z)
    (newRecords : list Z) (writes failures : Z) : M (list Z * Z * Z) :=
  match fuel with
  | O => fun _ => OutOfFuel
  | S fuel' =>
      now <- Date_now h ;;
      if now - startTime <? maxDuration then
        values <- make_values chunkSize [] ;;
        db_run_control ;;;
        ' (newRecords', writes', failures') <-
          insert_values values tag ts newRecords writes failures ;;
        db_run_control ;;;
        now <- Date_now h ;;
        if maxDuration <=? now - startTime
        then ret (newRecords', writes', failures')
        else write_loop fuel' startTime tag ts newRecords' writes' failures'
      else ret (newRecords, writes, failures)
  end.

(** [newRecords.sort(() => 0.5 - Math.random())]: in place. *)
Definition sort_randomly (newRecords : list Z) : M (list Z) :=
  fun s =>
    let (sorted, drawn) := sort_random e (draws s) newRecords in
    Return sorted (draw_n drawn s).

(** The [for ... of readSample] of lines 101-103. *)
Fixpoint read_sample (readSample : list Z) : M unit :=
  match readSample with
  | [] => ret tt
  | i :: rest => selectStmt_get (Some i) ;;; read_sample rest
  end.

(** [db.get('SELECT COUNT( * ) as count FROM comments')] *)
Definition count_comments : M Z :=
  fun s =>
    match db s, comments (file s) with
    | None, _ => db_undefined s
    | Some _, None => no_such_table CommentsT s
    | Some _, Some l => Return (Z.of_nat (List.length l)) s
    end.

(** The rows that [DELETE ... WHERE test_session = ? OR timestamp < ?]
    leaves. *)
Definition kept (tag : string) (tenMinutesAgo : Z) (r : Comment) : bool :=
  negb (String.eqb (test_session r) tag || (timestamp r <? tenMinutesAgo)).

(** Line 113 *)
Definition delete_session_or_old (tag : string) (tenMinutesAgo : Z) : M unit :=
  fun s =>
    let f := file s in
    match db s, comments f with
    | None, _ => db_undefined s
    | Some _, None => no_such_table CommentsT s
    | Some _, Some l =>
        Return tt
          (set_file (with_comments (Some (filter (kept tag tenMinutesAgo) l))
                       (comments_seq f) f) s)
    end.

(** [runTest], lines 53-128. *)
Definition runTest (fuel : nat) : M Result :=
  startTime <- Date_now h ;;
  now <- Date_now h ;;
  let testSessionId := session_tag now in
  now <- Date_now h ;;
  let currentTimestamp := Math_floor (seconds now) in
  db_prepare CommentsT ;;;
  ' (newRecords, writes, failures) <-
    write_loop fuel startTime testSessionId currentTimestamp [] 0 0 ;;
  now <- Date_now h ;;
  let writeTime := seconds (now - startTime) in
  let writesPerSecond := per_second writes writeTime in
  readStart <- Date_now h ;;
  let readSampleSize := Z.min 10000 (Z.of_nat (List.length newRecords)) in
  newRecords <- sort_randomly newRecords ;;
  let readSample := firstn (Z.to_nat readSampleSize) newRecords in
  db_prepare CommentsT ;;;
  read_sample readSample ;;;
  now <- Date_now h ;;
  let readTime := seconds (now - readStart) in
  let readsPerSecond :=
    Math_round
      (mul (div (Num (inject_Z readSampleSize)) (Num readTime))
         (div (Num (inject_Z (Z.of_nat (List.length newRecords))))
            (Num (inject_Z readSampleSize)))) in
  total <- count_comments ;;
  size <- (fun s => Return (statSync_size h (file s)) s) ;;
  let dbSizeInMb := div (Num (inject_Z size)) (Num (inject_Z (1024 * 1024))) in
  now <- Date_now h ;;
  let tenMinutesAgo := Math_floor (seconds now) - 600 in
  delete_session_or_old testSessionId tenMinutesAgo ;;;
  now <- Date_now h ;;
  let totalDuration := seconds (now - startTime) in
  ret {| dbSizeInMb := round2 dbSizeInMb;
         failureRate :=
           div (Math_round
                  (mul (div (Num (inject_Z failures)) (Num (inject_Z writes)))
                     (Num 10000)))
             (Num 100);
         reads := readSampleSize;
         readsPerSecond := readsPerSecond;
         total := total;
         writes := writes;
         writesPerSecond := writesPerSecond;
         writeTime := round2 (Num writeTime);
         duration := round2 (Num totalDuration) |}.

End Program.

(** An engine that rejects every third call of [stmt.run] and whose sort
    reverses the array after four draws. *)
Definition engine_every_third : Engine :=
  {| rejects := fun n => n mod 3 =? 2;
     sort_random := fun _ arr => (rev arr, 4%nat) |}.

(** An engine that rejects every call. *)
Definition engine_rejecting : Engine :=
  {| rejects := fun _ => true;
     sort_random := fun _ arr => (arr, 0%nat) |}.

End Sqlite3Variant.

(** [grown tag l s added]: the comments table is [l] followed by [added],
    rows of the session [tag]. *)
Definition grown (tag : string) (l : list Comment) (s : State)
    (added : list Comment) : Prop :=
  comments (file s) = Some (l ++ added)
  /\ Forall (fun r => test_session r = tag) added.

(** An opened database that has the comments table. *)
Definition ready (s : State) : Prop :=
  db s <> None /\ comments (file s) <> None.

(** Runs of the variant on a table with two old rows, at second 1000 and
    later: one row is older than ten minutes. *)
Definition aged_rows : list Comment :=
  [ {| id := 5; author := "ann"; content := "first";
       test_session := "test_old"; timestamp := 100 |};
    {| id := 7; author := "bob"; content := "second";
       test_session := "test_old"; timestamp := 900 |} ].

Definition aged_state : State :=
  {| ticks := 1000; draws := 0;
     db := Some {| conn_id := 0; pragmas := [] |}; connections := [0%nat];
     file := {| test_results_cache := Some []; cache_seq := 0;
                comments := Some aged_rows; comments_seq := 9;
                indexes := [] |};
     trace := [] |}.

Definition variant_result : Sqlite3Variant.Result :=
  Eval vm_compute in
    match returned (Sqlite3Variant.runTest host_1s
                      Sqlite3Variant.engine_every_third 50 aged_state) with
    | Some r => r
    | None => Sqlite3Variant.mkResult NaN NaN 0 NaN 0 0 NaN NaN NaN
    end.

Definition variant_state : State :=
  Eval vm_compute in
    match final_state (Sqlite3Variant.runTest host_1s
                         Sqlite3Variant.engine_every_third 50 aged_state) with
    | Some s => s
    | None => initial_state
    end.

Definition rejected_result : Sqlite3Variant.Result :=
  Eval vm_compute in
    match returned (Sqlite3Variant.runTest host_1s
                      Sqlite3Variant.engine_rejecting 50 aged_state) with
    | Some r => r
    | None => Sqlite3Variant.mkResult NaN NaN 0 NaN 0 0 NaN NaN NaN
    end.

Definition rejected_state : State :=
  Eval vm_compute in
    match final_state (Sqlite3Variant.runTest host_1s
                         Sqlite3Variant.engine_rejecting 50 aged_state) with
    | Some s => s
    | None => initial_state
    end.


(** * Verification *)

(** ** Numbers *)

Lemma Qltb_lt (a b : Q) : Qltb a b = true <-> (a < b)%Q.
Proof. unfold Qltb, Qlt. apply Z.ltb_lt. Qed.

Lemma Qltb_ge (a b : Q) : Qltb a b = false <-> (b <= a)%Q.
Proof. unfold Qltb, Qle. apply Z.ltb_ge. Qed.

Lemma Qround_half_up_comp (p q : Q) :
  (p == q)%Q -> Qround_half_up p = Qround_half_up q.
Proof.
  intros E. unfold Qround_half_up. apply Qfloor_comp. now rewrite E.
Qed.

(** [Math.round] gives the nearest integer, the upper one at a half. *)
Lemma Qround_half_up_nearest (q : Q) :
  (q - (1 # 2) < inject_Z (Qround_half_up q))%Q
  /\ (inject_Z (Qround_half_up q) <= q + (1 # 2))%Q.
Proof.
  unfold Qround_half_up. split.
  - pose proof (Qlt_floor (q + (1 # 2))) as L.
    rewrite inject_Z_plus in L.
    apply Qplus_lt_l with (z := 1%Q).
    eapply Qle_lt_trans; [| exact L].
    ring_simplify. apply Qle_refl.
  - apply Qfloor_le.
Qed.

Lemma per_second_zero (e : Q) :
  per_second 0 e = if Qeq_bool e 0 then NaN else Num (inject_Z 0).
Proof.
  unfold per_second, div.
  destruct (Qeq_bool e 0) eqn:E; [reflexivity|].
  cbn [Math_round]. f_equal. f_equal.
  rewrite (Qround_half_up_comp (inject_Z 0 / e) 0); [reflexivity|].
  unfold Qdiv. now rewrite Qmult_0_l.
Qed.

(** ** Inversion of the monad *)

Lemma bind_Return {A B} (m : M A) (k : A -> M B) s b s' :
  bind m k s = Return b s' ->
  exists a s1, m s = Return a s1 /\ k a s1 = Return b s'.
Proof.
  unfold bind. destruct (m s) as [a s1|e s1|]; try discriminate.
  intros E. now exists a, s1.
Qed.

Lemma bind_eq {A B} (m : M A) (k : A -> M B) s a s1 :
  m s = Return a s1 -> bind m k s = k a s1.
Proof. unfold bind. now intros ->. Qed.

Ltac splits := repeat match goal with |- _ /\ _ => split end.

Ltac bind_inv H :=
  let a := fresh "a" in
  let s1 := fresh "s" in
  let E := fresh "E" in
  apply bind_Return in H; destruct H as (a & s1 & E & H).

Tactic Notation "bind_inv_as" hyp(H) simple_intropattern(a) ident(E) :=
  let s1 := fresh "s" in
  apply bind_Return in H; destruct H as (a & s1 & E & H).

(** ** What a run leaves alone *)

Lemma frame_refl s : frame s s.
Proof. unfold frame. tauto. Qed.

Lemma frame_trans s1 s2 s3 : frame s1 s2 -> frame s2 s3 -> frame s1 s3.
Proof.
  unfold frame. intros (A1 & A2 & A3 & A4 & A5) (B1 & B2 & B3 & B4 & B5).
  repeat split; try congruence. auto.
Qed.

Lemma stable_Return {A} (m : M A) s a s' :
  stable m -> m s = Return a s' -> frame s s'.
Proof. intros St E. specialize (St s). now rewrite E in St. Qed.

Lemma stable_ret {A} (a : A) : stable (ret a).
Proof. intros s. apply frame_refl. Qed.

Lemma stable_throw {A} (e : exn) : stable (@throw A e).
Proof. intros s. apply frame_refl. Qed.

Lemma stable_bind {A B} (m : M A) (k : A -> M B) :
  stable m -> (forall a, stable (k a)) -> stable (bind m k).
Proof.
  intros Sm Sk s. unfold bind. specialize (Sm s).
  destruct (m s) as [a s1|e s1|]; auto.
  specialize (Sk a s1). destruct (k a s1); auto; eapply frame_trans; eauto.
Qed.

Section Frame.

Variable h : Host.
Variable cfg : Config.

Lemma stable_Date_now : stable (Date_now h).
Proof. intros s. cbn. unfold frame. cbn. tauto. Qed.

Lemma stable_Math_random : stable (Math_random h).
Proof. intros s. cbn. unfold frame. cbn. tauto. Qed.

Lemma stable_random_string a b : stable (random_string h a b).
Proof.
  unfold random_string.
  repeat (apply stable_bind; [apply stable_Math_random | intros ?]).
  apply stable_ret.
Qed.

Lemma stable_bind_parameter v : stable (bind_parameter v).
Proof. destruct v; [apply stable_ret | apply stable_throw]. Qed.

Lemma stable_db_prepare t : stable (db_prepare t).
Proof.
  intros s. unfold db_prepare, db_undefined, no_such_table, throw.
  destruct (db s); [destruct (table_exists t (file s))|]; apply frame_refl.
Qed.

Ltac frame_step :=
  intros s; cbv beta delta [no_such_table throw]; cbn beta iota;
  destruct (comments (file s)) eqn:?; unfold frame; cbn;
  repeat split; auto; congruence.

Lemma stable_insertStmt_run a c tag ts : stable (insertStmt_run a c tag ts).
Proof. unfold insertStmt_run. frame_step. Qed.

Lemma stable_selectStmt_get v : stable (selectStmt_get v).
Proof.
  unfold selectStmt_get. apply stable_bind; [apply stable_bind_parameter|].
  intros i. frame_step.
Qed.

Lemma stable_updateStmt_run c v : stable (updateStmt_run c v).
Proof.
  unfold updateStmt_run. apply stable_bind; [apply stable_bind_parameter|].
  intros i. frame_step.
Qed.

Lemma stable_deleteStmt_run v : stable (deleteStmt_run v).
Proof.
  unfold deleteStmt_run. apply stable_bind; [apply stable_bind_parameter|].
  intros i. frame_step.
Qed.

Lemma stable_delete_session tag : stable (delete_session tag).
Proof.
  unfold delete_session. apply stable_bind; [apply stable_db_prepare|].
  intros _. frame_step.
Qed.

Lemma stable_db_transaction {A} (body : M A) :
  stable body -> stable (db_transaction body).
Proof.
  intros St s. unfold db_transaction. specialize (St s).
  destruct (body s) as [a s1|e s1|]; auto.
  unfold frame in *; cbn. tauto.
Qed.

Lemma stable_insert_chunk n tag ts nr w :
  stable (insert_chunk h n tag ts nr w).
Proof.
  revert nr w. induction n as [|n IH]; intros nr w; cbn [insert_chunk].
  - apply stable_ret.
  - apply stable_bind; [apply stable_random_string | intros ?].
    apply stable_bind; [apply stable_random_string | intros ?].
    apply stable_bind; [apply stable_insertStmt_run | intros ?].
    apply IH.
Qed.

Lemma stable_write_loop fuel ws tag ts nr w :
  stable (write_loop h cfg fuel ws tag ts nr w).
Proof.
  revert nr w. induction fuel as [|fuel IH]; intros nr w; cbn [write_loop].
  - intros s. exact I.
  - apply stable_bind; [apply stable_Date_now | intros now].
    destruct (Qltb _ _); [| apply stable_ret].
    apply stable_bind.
    + apply stable_db_transaction, stable_insert_chunk.
    + intros [nr' w']. apply IH.
Qed.

Lemma stable_pick nr : stable (pick h nr).
Proof.
  unfold pick. apply stable_bind; [apply stable_Math_random | intros ?].
  apply stable_ret.
Qed.

Lemma stable_read_loop fuel rs nr n d :
  stable (read_loop h cfg fuel rs nr n d).
Proof.
  revert n d. induction fuel as [|fuel IH]; intros n d; cbn [read_loop].
  - intros s. exact I.
  - destruct (Qltb _ _); [| apply stable_ret].
    apply stable_bind; [apply stable_pick | intros ?].
    apply stable_bind; [apply stable_selectStmt_get | intros ?].
    apply stable_bind; [apply stable_Date_now | intros ?].
    apply IH.
Qed.

Lemma stable_update_loop fuel us nr n d :
  stable (update_loop h cfg fuel us nr n d).
Proof.
  revert n d. induction fuel as [|fuel IH]; intros n d; cbn [update_loop].
  - intros s. exact I.
  - destruct (Qltb _ _); [| apply stable_ret].
    apply stable_bind; [apply stable_pick | intros ?].
    apply stable_bind; [apply stable_random_string | intros ?].
    apply stable_bind; [apply stable_updateStmt_run | intros ?].
    apply stable_bind; [apply stable_Date_now | intros ?].
    apply IH.
Qed.

Lemma stable_delete_loop fuel ds nr n d :
  stable (delete_loop h cfg fuel ds nr n d).
Proof.
  revert nr n d. induction fuel as [|fuel IH]; intros nr n d; cbn [delete_loop].
  - intros s. exact I.
  - destruct (_ && _); [| apply stable_ret].
    destruct (pop nr) as [i nr'].
    apply stable_bind; [apply stable_deleteStmt_run | intros ?].
    apply stable_bind; [apply stable_Date_now | intros ?].
    apply IH.
Qed.

Lemma stable_runTest fuel : stable (runTest h cfg fuel).
Proof.
  unfold runTest.
  repeat first
    [ apply stable_ret
    | apply stable_bind;
      [ first [ apply stable_Date_now | apply stable_db_prepare
              | apply stable_write_loop | apply stable_read_loop
              | apply stable_update_loop | apply stable_delete_loop
              | apply stable_delete_session
              | (intros s; apply frame_refl) ]
      | intros ? ]
    | match goal with |- stable (match ?x with _ => _ end) => destruct x end ].
Qed.

End Frame.

(** ** [initDatabase] and the cache *)

Section Cache.

Variable h : Host.
Variable cfg : Config.

Lemma initDatabase_eq s : initDatabase s = Return tt (after_init s).
Proof. reflexivity. Qed.

Lemma create_if_absent_rows {A} (t : option (list A)) :
  create_if_absent t = Some (rows t).
Proof. now destruct t. Qed.

Lemma rows_create_if_absent {A} (t : option (list A)) :
  rows (create_if_absent t) = rows t.
Proof. now destruct t. Qed.

Lemma add_index_idem name ix : add_index name (add_index name ix) = add_index name ix.
Proof.
  unfold add_index at 2.
  destruct (existsb (String.eqb name) ix) eqn:E.
  - unfold add_index. now rewrite E.
  - unfold add_index. rewrite E, existsb_app. cbn [existsb].
    rewrite String.eqb_refl. cbn [orb]. now rewrite orb_true_r.
Qed.

Lemma add_index_In name ix x : In x ix -> In x (add_index name ix).
Proof.
  unfold add_index. destruct (existsb _ ix); auto.
  intros I. apply in_or_app. now left.
Qed.

Lemma add_index_keeps name other ix :
  existsb (String.eqb name) ix = true ->
  existsb (String.eqb name) (add_index other ix) = true.
Proof.
  intros E. apply existsb_exists in E as (x & I & E).
  apply existsb_exists. exists x. split; auto using add_index_In.
Qed.

Lemma add_index_has name ix : existsb (String.eqb name) (add_index name ix) = true.
Proof.
  unfold add_index. destruct (existsb (String.eqb name) ix) eqn:E; auto.
  rewrite existsb_app. cbn [existsb]. rewrite String.eqb_refl.
  cbn [orb]. now rewrite orb_true_r.
Qed.

(** Creating the schema twice is creating it once. *)
Lemma init_file_idem f : init_file (init_file f) = init_file f.
Proof.
  unfold init_file. cbn [test_results_cache cache_seq comments comments_seq indexes].
  f_equal.
  - now destruct (test_results_cache f).
  - now destruct (comments f).
  - set (a := "idx_test_results_cache_timestamp").
    set (b := "idx_comments_timestamp").
    assert (Ha : add_index a (add_index b (add_index a (indexes f)))
                 = add_index b (add_index a (indexes f))).
    { unfold add_index at 1.
      now rewrite (add_index_keeps a b _ (add_index_has a (indexes f))). }
    rewrite Ha. apply add_index_idem.
Qed.

Lemma select_cached_after_init s :
  select_cached (after_init s) = Return (cached_row s) (after_select s).
Proof.
  unfold select_cached, bind, db_prepare, cached_row. cbn.
  destruct (test_results_cache (file s)) eqn:E; cbn; now rewrite E.
Qed.

Lemma db_prepare_ok t s :
  db s <> None -> table_exists t (file s) = true -> db_prepare t s = Return tt s.
Proof.
  intros Hdb Ht. unfold db_prepare. rewrite Ht. now destruct (db s).
Qed.

Lemma delete_cache_ok s l :
  db s <> None -> test_results_cache (file s) = Some l ->
  delete_cache s
  = Return tt (log DeleteCache
                 (set_file (with_cache (Some []) (cache_seq (file s)) (file s)) s)).
Proof.
  intros Hdb Ht. unfold delete_cache.
  erewrite bind_eq by (apply db_prepare_ok; [assumption | cbn; now rewrite Ht]).
  now rewrite Ht.
Qed.

(** [refresh], relative to the outcome of [runTest]. *)
Lemma refresh_eq fuel s :
  db s <> None -> test_results_cache (file s) <> None ->
  refresh h cfg fuel s =
  match runTest h cfg fuel s with
  | Return r s1 => Return (Object r) (store_result h r s1)
  | Throw e s1 => Throw e s1
  | OutOfFuel => OutOfFuel
  end.
Proof.
  intros Hdb Ht. unfold refresh. unfold bind at 1.
  pose proof (stable_runTest h cfg fuel s) as F.
  destruct (runTest h cfg fuel s) as [r s1|e s1|]; auto.
  destruct F as (F1 & F2 & F3 & F4 & _).
  destruct (test_results_cache (file s)) as [l|] eqn:El; [|congruence].
  erewrite bind_eq by (apply (delete_cache_ok s1 l); congruence).
  erewrite bind_eq by (apply db_prepare_ok; cbn; congruence).
  reflexivity.
Qed.

(** [getCachedTest], relative to the outcome of [runTest]. *)
Lemma getCachedTest_eq fuel s :
  getCachedTest h cfg fuel s =
  match cached_row s with
  | Some row =>
      if is_fresh cfg (clock h (ticks s)) row then
        match JSON_parse h (result row) with
        | Some v => Return (Parsed v) (tick (after_select s))
        | None => Throw SyntaxError (tick (after_select s))
        end
      else refresh h cfg fuel (tick (after_select s))
  | None => refresh h cfg fuel (after_select s)
  end.
Proof.
  unfold getCachedTest.
  rewrite (bind_eq _ _ _ _ _ (initDatabase_eq s)).
  rewrite (bind_eq _ _ _ _ _ (select_cached_after_init s)).
  destruct (cached_row s) as [row|]; [|reflexivity].
  unfold bind at 1. cbn [Date_now]. unfold is_fresh. cbn [ticks after_select log after_init].
  destruct (Qltb _ _); [|reflexivity].
  destruct (JSON_parse h (result row)); reflexivity.
Qed.

End Cache.

Section CacheClaims.

Variable h : Host.
Variable cfg : Config.

Lemma getCachedTest_handle fuel s v s' :
  getCachedTest h cfg fuel s = Return v s' ->
  db s' = db (after_init s) /\ connections s' = connections (after_init s).
Proof.
  rewrite getCachedTest_eq.
  assert (R : forall s0, db s0 = db (after_init s) ->
                connections s0 = connections (after_init s) ->
                test_results_cache (file s0) <> None ->
                refresh h cfg fuel s0 = Return v s' ->
                db s' = db (after_init s)
                /\ connections s' = connections (after_init s)).
  { intros s0 E1 E2 E3. rewrite refresh_eq; [| rewrite E1; discriminate | exact E3].
    pose proof (stable_runTest h cfg fuel s0) as F.
    destruct (runTest h cfg fuel s0) as [r s1|e s1|]; try discriminate.
    intros [= <- <-]. destruct F as (F1 & F2 & _).
    unfold store_result. cbn [db connections]. split; congruence. }
  assert (T : test_results_cache (file (after_init s)) <> None).
  { cbn. now destruct (test_results_cache (file s)). }
  destruct (cached_row s) as [row|].
  - destruct (is_fresh _ _ _).
    + destruct (JSON_parse h (result row)); [|discriminate].
      intros [= <- <-]. now cbn.
    + apply R; auto.
  - apply R; auto.
Qed.

End CacheClaims.

(** ** The storage handle *)

(** C1, as the code has it: [initDatabase] has no guard. Every call, and so
    every call of [getCachedTest], creates a new connection and binds [db]
    to it, whatever [db] held; the connection created before is neither
    reused nor closed. What is idempotent is the schema: the rows of both
    tables are kept, and initialising twice leaves the file as initialising
    once does. *)
Theorem initDatabase_opens_a_new_connection (h : Host) (cfg : Config) :
  (forall s,
      initDatabase s = Return tt (after_init s)
      /\ connections (after_init s) = List.length (connections s) :: connections s
      /\ db (after_init s)
         = Some {| conn_id := List.length (connections s); pragmas := init_pragmas |}
      /\ rows (test_results_cache (file (after_init s)))
         = rows (test_results_cache (file s))
      /\ rows (comments (file (after_init s))) = rows (comments (file s))
      /\ file (after_init (after_init s)) = file (after_init s))
  /\ (forall fuel s v s',
         getCachedTest h cfg fuel s = Return v s' ->
         connections s' = List.length (connections s) :: connections s
         /\ db s'
            = Some {| conn_id := List.length (connections s);
                      pragmas := init_pragmas |}).
Proof.
  split.
  - intros s. repeat split; cbn [after_init file init_file test_results_cache comments].
    + apply rows_create_if_absent.
    + apply rows_create_if_absent.
    + apply init_file_idem.
  - intros fuel s v s' E.
    apply getCachedTest_handle in E as (E1 & E2). now rewrite E1, E2.
Qed.

Lemma initDatabase_opens_a_new_connection_witness :
  connections state_after_first_call = [0%nat]
  /\ db state_after_first_call
     = Some {| conn_id := 0; pragmas := init_pragmas |}.
Proof.
  apply (proj2 (initDatabase_opens_a_new_connection host_1s source_config)
           50%nat initial_state (Object result_of_first_call)).
  vm_compute. reflexivity.
Defined.

(** C1 as stated fails: a process whose handle is already open (connection 0,
    made by its first call) gets a second connection on its second call, and
    [db] is rebound to it. *)
Lemma second_call_opens_second_connection :
  db state_after_first_call = Some {| conn_id := 0; pragmas := init_pragmas |}
  /\ option_map db
       (final_state (getCachedTest host_1s source_config 50 state_after_first_call))
     = Some (Some {| conn_id := 1; pragmas := init_pragmas |})
  /\ option_map connections
       (final_state (getCachedTest host_1s source_config 50 state_after_first_call))
     = Some [1%nat; 0%nat].
Proof. vm_compute. repeat split. Qed.

(** ** The result cache *)

Lemma cache_size_after_select s : cache_size (after_select s) = cache_size s.
Proof.
  unfold cache_size. cbn. apply f_equal, rows_create_if_absent.
Qed.

Lemma getCachedTest_cache_size h cfg fuel s s' :
  final_state (getCachedTest h cfg fuel s) = Some s' ->
  (cache_size s <= 1)%nat -> (cache_size s' <= 1)%nat.
Proof.
  rewrite getCachedTest_eq. intros E L.
  assert (R : forall s0, cache_size s0 = cache_size s -> db s0 <> None ->
                test_results_cache (file s0) <> None ->
                final_state (refresh h cfg fuel s0) = Some s' ->
                (cache_size s' <= 1)%nat).
  { intros s0 E0 D T. rewrite refresh_eq by assumption.
    pose proof (stable_runTest h cfg fuel s0) as F.
    destruct (runTest h cfg fuel s0) as [r s1|e s1|]; try discriminate.
    - intros [= <-]. unfold cache_size. cbn. lia.
    - intros [= <-]. destruct F as (_ & _ & F3 & _).
      unfold cache_size in *. rewrite F3. lia. }
  assert (T : test_results_cache (file (after_init s)) <> None).
  { cbn. now destruct (test_results_cache (file s)). }
  destruct (cached_row s) as [row|].
  - destruct (is_fresh _ _ _).
    + assert (final_state
                (match JSON_parse h (result row) with
                 | Some v => Return (Parsed v) (tick (after_select s))
                 | None => Throw SyntaxError (tick (after_select s))
                 end) = Some (tick (after_select s))) as E'
          by now destruct (JSON_parse h (result row)).
      rewrite E' in E. injection E as <-.
      change (cache_size (after_select s) <= 1)%nat.
      now rewrite cache_size_after_select.
    + apply R in E; auto.
      * apply cache_size_after_select.
      * discriminate.
  - apply R in E; auto.
    + apply cache_size_after_select.
    + discriminate.
Qed.

(** A call that returns the object of a run went through [refresh]. *)
Lemma getCachedTest_Object h cfg fuel s r s' :
  getCachedTest h cfg fuel s = Return (Object r) s' ->
  exists s0 s1,
    (s0 = after_select s \/ s0 = tick (after_select s))
    /\ runTest h cfg fuel s0 = Return r s1
    /\ s' = store_result h r s1.
Proof.
  rewrite getCachedTest_eq.
  assert (T : test_results_cache (file (after_init s)) <> None).
  { cbn. now destruct (test_results_cache (file s)). }
  assert (R : forall s0, db s0 <> None -> test_results_cache (file s0) <> None ->
                refresh h cfg fuel s0 = Return (Object r) s' ->
                exists s1, runTest h cfg fuel s0 = Return r s1
                           /\ s' = store_result h r s1).
  { intros s0 D T0. rewrite refresh_eq by assumption.
    destruct (runTest h cfg fuel s0) as [r1 s1|e s1|]; try discriminate.
    intros [= -> <-]. now exists s1. }
  destruct (cached_row s) as [row|].
  - destruct (is_fresh _ _ _).
    + destruct (JSON_parse h (result row)); discriminate.
    + intros E. apply R in E as (s1 & E1 & E2); [| discriminate | exact T].
      exists (tick (after_select s)), s1. auto.
  - intros E. apply R in E as (s1 & E1 & E2); [| discriminate | exact T].
    exists (after_select s), s1. auto.
Qed.

(** C4: a process started on a new database file has at most one row in
    [test_results_cache] after every call of [getCachedTest]; more generally
    no call takes the table from at most one row to more than one, and a
    call that runs the workload leaves exactly the one row it inserts,
    whatever the table held: its last two statements are the DELETE of all
    rows and then the INSERT. *)
Theorem at_most_one_cache_row (h : Host) (cfg : Config) :
  (forall s', after_calls h cfg initial_state s' -> (cache_size s' <= 1)%nat)
  /\ (forall s s', after_calls h cfg s s' ->
                   (cache_size s <= 1)%nat -> (cache_size s' <= 1)%nat)
  /\ (forall fuel s r s',
         getCachedTest h cfg fuel s = Return (Object r) s' ->
         exists row earlier,
           test_results_cache (file s') = Some [row]
           /\ result row = JSON_stringify h r
           /\ trace s' = InsertCache (cache_id row) :: DeleteCache :: earlier).
Proof.
  assert (G : forall s s', after_calls h cfg s s' ->
                (cache_size s <= 1)%nat -> (cache_size s' <= 1)%nat).
  { induction 1 as [s|s fuel s1 s2 E _ IH]; auto.
    intros L. apply IH. eapply getCachedTest_cache_size; eauto. }
  split; [|split].
  - intros s' A. apply (G _ _ A). cbn. lia.
  - exact G.
  - intros fuel s r s' E.
    apply getCachedTest_Object in E as (s0 & s1 & _ & _ & ->).
    exists (stored_row h r s1), (trace s1). splits; reflexivity.
Qed.

Lemma at_most_one_cache_row_witness :
  (cache_size state_after_first_call <= 1)%nat.
Proof.
  apply (proj1 (at_most_one_cache_row host_1s source_config)).
  apply calls_more with (fuel := 50%nat) (s1 := state_after_first_call).
  - vm_compute. reflexivity.
  - apply calls_none.
Defined.

(** C9: when the most recent cache row is fresh, [getCachedTest] returns
    [JSON.parse] of the stored payload (or throws what [JSON.parse] throws)
    and executes one statement only, the SELECT on the cache: the rows and
    the rowid counters of both tables are those of before, and no random
    number was drawn, so the workload did not run. *)
Theorem cache_hit_is_read_only (h : Host) (cfg : Config) (fuel : nat)
    (s : State) (row : CacheRow) :
  cached_row s = Some row ->
  (seconds (clock h (ticks s)) - inject_Z (cache_timestamp row)
   < maxCacheSeconds cfg)%Q ->
  let s' := tick (after_select s) in
  getCachedTest h cfg fuel s
  = match JSON_parse h (result row) with
    | Some v => Return (Parsed v) s'
    | None => Throw SyntaxError s'
    end
  /\ rows (test_results_cache (file s')) = rows (test_results_cache (file s))
  /\ rows (comments (file s')) = rows (comments (file s))
  /\ cache_seq (file s') = cache_seq (file s)
  /\ comments_seq (file s') = comments_seq (file s)
  /\ trace s' = SelectCache :: trace s
  /\ draws s' = draws s.
Proof.
  intros C F s'. apply Qltb_lt in F.
  rewrite getCachedTest_eq, C. unfold is_fresh. rewrite F.
  repeat split; cbn; apply rows_create_if_absent.
Qed.

Lemma cache_hit_is_read_only_witness :
  getCachedTest host_1s source_config 0 cached_state
  = Return (Parsed (JString "209")) (tick (after_select cached_state))
  /\ rows (test_results_cache (file (tick (after_select cached_state))))
     = rows (test_results_cache (file cached_state)).
Proof.
  pose proof (cache_hit_is_read_only host_1s source_config 0 cached_state
                {| cache_id := 1; result := "209"; cache_timestamp := 0 |}
                eq_refl eq_refl) as W.
  split; [exact (proj1 W) | exact (proj1 (proj2 W))].
Defined.

(** ** The workload: what a returning step did *)

Section Steps.

Variable h : Host.
Variable cfg : Config.

Lemma Date_now_Return s t s' :
  Date_now h s = Return t s' -> t = clock h (ticks s) /\ s' = tick s.
Proof. unfold Date_now. now intros [= <- <-]. Qed.

Lemma random_string_Return a b s x s' :
  random_string h a b s = Return x s' ->
  trace s' = trace s /\ file s' = file s /\ ticks s' = ticks s.
Proof. unfold random_string, bind, Math_random, ret. now intros [= _ <-]. Qed.

Lemma max_rowid_ge {A} (key : A -> Z) l : 0 <= max_rowid key l.
Proof. unfold max_rowid. induction l; cbn; lia. Qed.

Lemma insertStmt_run_Return a c tag ts s i s' :
  insertStmt_run a c tag ts s = Return i s' ->
  trace s' = InsertComment i :: trace s
  /\ comments_seq (file s) < i
  /\ comments_seq (file s') = i
  /\ ticks s' = ticks s.
Proof.
  unfold insertStmt_run. destruct (comments (file s)) as [l|]; [|discriminate].
  intros [= <- <-]. cbn. unfold next_rowid. repeat split; lia.
Qed.

Lemma bind_parameter_Return v s i s' :
  bind_parameter v s = Return i s' -> v = Some i /\ s' = s.
Proof. destruct v; cbn; [now intros [= <- <-] | discriminate]. Qed.

Lemma selectStmt_get_Return v s x s' :
  selectStmt_get v s = Return x s' ->
  exists i, v = Some i /\ s' = log (SelectComment i) s.
Proof.
  unfold selectStmt_get. intros E. bind_inv E.
  apply bind_parameter_Return in E0 as (-> & ->).
  destruct (comments (file s)); [|discriminate].
  injection E as _ <-. now exists a.
Qed.

Lemma updateStmt_run_Return c v s x s' :
  updateStmt_run c v s = Return x s' ->
  exists i, v = Some i /\ trace s' = UpdateComment i :: trace s
            /\ ticks s' = ticks s.
Proof.
  unfold updateStmt_run. intros E. bind_inv E.
  apply bind_parameter_Return in E0 as (-> & ->).
  destruct (comments (file s)); [|discriminate].
  injection E as _ <-. now exists a.
Qed.

Lemma deleteStmt_run_Return v s x s' :
  deleteStmt_run v s = Return x s' ->
  exists i, v = Some i /\ trace s' = DeleteComment i :: trace s
            /\ ticks s' = ticks s.
Proof.
  unfold deleteStmt_run. intros E. bind_inv E.
  apply bind_parameter_Return in E0 as (-> & ->).
  destruct (comments (file s)); [|discriminate].
  injection E as _ <-. now exists a.
Qed.

Lemma db_prepare_Return t s x s' :
  db_prepare t s = Return x s' -> s' = s.
Proof.
  unfold db_prepare. destruct (db s); [|discriminate].
  destruct (table_exists t (file s)); [|discriminate]. now intros [= _ <-].
Qed.

Lemma delete_session_Return tag s x s' :
  delete_session tag s = Return x s' ->
  trace s' = DeleteSession tag :: trace s
  /\ ticks s' = ticks s
  /\ exists l, comments (file s) = Some l
       /\ comments (file s')
          = Some (filter (fun r => negb (String.eqb (test_session r) tag)) l).
Proof.
  unfold delete_session. intros E. bind_inv E.
  apply db_prepare_Return in E0 as ->.
  destruct (comments (file s)) as [l|]; [|discriminate].
  injection E as _ <-. cbn. repeat split. now exists l.
Qed.

Lemma db_transaction_Return {A} (body : M A) s a s' :
  db_transaction body s = Return a s' -> body s = Return a s'.
Proof. unfold db_transaction. now destruct (body s). Qed.

Lemma index_In {A} (arr : list A) k x : index arr k = Some x -> In x arr.
Proof.
  unfold index. destruct (k <? 0); [discriminate|]. apply nth_error_In.
Qed.

Lemma pick_Return nr s v s' :
  pick h nr s = Return v s' ->
  s' = draw s /\ forall i, v = Some i -> In i nr.
Proof.
  unfold pick, bind, Math_random, ret. intros [= <- <-]. split; auto.
  intros i. apply index_In.
Qed.

Lemma pop_snoc {A} (l : list A) x : pop (l ++ [x]) = (Some x, l).
Proof. unfold pop. rewrite rev_unit. now rewrite rev_involutive. Qed.

Lemma pop_Some {A} (arr : list A) x rest :
  pop arr = (Some x, rest) -> arr = rest ++ [x].
Proof.
  unfold pop. destruct (rev arr) as [|y r] eqn:E; [discriminate|].
  intros [= -> <-]. rewrite <- (rev_involutive arr), E. reflexivity.
Qed.

(** *** The write phase *)

Lemma insert_chunk_Return n tag ts nr w s nr' w' s' :
  insert_chunk h n tag ts nr w s = Return (nr', w') s' ->
  exists ids,
    nr' = nr ++ ids /\ List.length ids = n /\ w' = w + Z.of_nat n
    /\ trace s' = map InsertComment (rev ids) ++ trace s
    /\ ticks s' = ticks s
    /\ (known nr s -> known nr' s').
Proof.
  revert nr w s. induction n as [|n IH]; intros nr w s E.
  - injection E as <- <- <-. exists []. rewrite app_nil_r.
    splits; auto; lia.
  - cbn [insert_chunk] in E. bind_inv E. bind_inv E. bind_inv E.
    apply random_string_Return in E0 as (T0 & F0 & K0).
    apply random_string_Return in E1 as (T1 & F1 & K1).
    apply insertStmt_run_Return in E2 as (T2 & L2 & S2 & K2).
    apply IH in E as (ids & -> & Len & -> & T & K & Kn).
    exists (a1 :: ids). unfold push in *. rewrite <- app_assoc.
    splits.
    + reflexivity.
    + cbn. now rewrite Len.
    + lia.
    + rewrite T, T2, T1, T0. cbn [rev]. rewrite map_app, <- app_assoc. reflexivity.
    + congruence.
    + intros (ND & B). cbn [app]. rewrite <- app_assoc in Kn. apply Kn.
      rewrite F1, F0 in L2. split.
      * apply NoDup_app; splits; auto.
        -- repeat constructor. intros [].
        -- intros x I [<-|[]]. apply B in I. lia.
      * intros x I. apply in_app_or in I as [I|[<-|[]]]; [apply B in I|]; lia.
Qed.

Lemma write_loop_Return fuel ws tag ts nr w s nr' w' s' :
  write_loop h cfg fuel ws tag ts nr w s = Return (nr', w') s' ->
  exists ids k,
    nr' = nr ++ ids /\ w' = w + Z.of_nat (List.length ids)
    /\ List.length ids = (chunkSize * k)%nat
    /\ trace s' = map InsertComment (rev ids) ++ trace s
    /\ (known nr s -> known nr' s').
Proof.
  revert nr w s. induction fuel as [|fuel IH]; intros nr w s E; [discriminate|].
  cbn [write_loop] in E. bind_inv E.
  apply Date_now_Return in E0 as (-> & ->).
  destruct (Qltb _ _).
  - bind_inv E. destruct a as [nr1 w1].
    apply db_transaction_Return, insert_chunk_Return in E0
      as (ids1 & -> & L1 & -> & T1 & _ & K1).
    apply IH in E as (ids & k & -> & -> & L & T & K).
    exists (ids1 ++ ids), (S k). rewrite <- app_assoc. splits.
    + reflexivity.
    + rewrite length_app. lia.
    + rewrite length_app. lia.
    + rewrite T, T1. cbn [trace tick]. rewrite rev_app_distr, map_app, <- app_assoc.
      reflexivity.
    + intros Kn. rewrite app_assoc. apply K, K1. exact Kn.
  - injection E as <- <- <-. exists [], 0%nat. rewrite app_nil_r.
    splits; auto; cbn; lia.
Qed.

(** *** The read, update and delete phases *)

Lemma read_loop_Return fuel rs nr reads rd s reads' rd' s' :
  read_loop h cfg fuel rs nr reads rd s = Return (reads', rd') s' ->
  exists used,
    trace s' = map SelectComment used ++ trace s
    /\ reads' = reads + Z.of_nat (List.length used)
    /\ incl used nr
    /\ Qltb rd' (maxDuration cfg) = false
    /\ file s' = file s.
Proof.
  revert reads rd s. induction fuel as [|fuel IH]; intros reads rd s E; [discriminate|].
  cbn [read_loop] in E. destruct (Qltb rd (maxDuration cfg)) eqn:C.
  - bind_inv E. bind_inv E. bind_inv E.
    apply pick_Return in E0 as (-> & I).
    apply selectStmt_get_Return in E1 as (i & -> & ->).
    apply Date_now_Return in E2 as (-> & ->).
    apply IH in E as (used & T & -> & In' & C' & F).
    exists (used ++ [i]). splits.
    + rewrite T, map_app, <- app_assoc. reflexivity.
    + rewrite length_app. cbn. lia.
    + intros x Hx. apply in_app_or in Hx as [Hx|[<-|[]]]; auto.
    + exact C'.
    + rewrite F. reflexivity.
  - injection E as <- <- <-. exists []. splits; auto.
    + cbn. lia.
    + intros x [].
Qed.

Lemma update_loop_Return fuel us nr updates ud s updates' ud' s' :
  update_loop h cfg fuel us nr updates ud s = Return (updates', ud') s' ->
  exists used,
    trace s' = map UpdateComment used ++ trace s
    /\ updates' = updates + Z.of_nat (List.length used)
    /\ incl used nr
    /\ Qltb ud' (maxDuration cfg) = false.
Proof.
  revert updates ud s. induction fuel as [|fuel IH]; intros updates ud s E; [discriminate|].
  cbn [update_loop] in E. destruct (Qltb ud (maxDuration cfg)) eqn:C.
  - bind_inv E. bind_inv E. bind_inv E. bind_inv E.
    apply pick_Return in E0 as (-> & I).
    apply random_string_Return in E1 as (T1 & _ & _).
    apply updateStmt_run_Return in E2 as (i & -> & T2 & _).
    apply Date_now_Return in E3 as (-> & ->).
    apply IH in E as (used & T & -> & In' & C').
    exists (used ++ [i]). splits.
    + rewrite T, map_app, <- app_assoc. cbn [trace tick]. rewrite T2, T1. reflexivity.
    + rewrite length_app. cbn. lia.
    + intros x Hx. apply in_app_or in Hx as [Hx|[<-|[]]]; auto.
    + exact C'.
  - injection E as <- <- <-. exists []. splits; auto.
    + cbn. lia.
    + intros x [].
Qed.

Lemma delete_loop_Return fuel ds nr deletes dd s deletes' dd' rest s' :
  delete_loop h cfg fuel ds nr deletes dd s = Return (deletes', dd', rest) s' ->
  exists deleted,
    trace s' = map DeleteComment deleted ++ trace s
    /\ nr = rest ++ deleted
    /\ deletes' = deletes + Z.of_nat (List.length deleted)
    /\ (Qltb dd' (maxDuration cfg) = false \/ rest = []).
Proof.
  revert nr deletes dd s.
  induction fuel as [|fuel IH]; intros nr deletes dd s E; [discriminate|].
  cbn [delete_loop] in E.
  destruct (Qltb dd (maxDuration cfg) && (0 <? Z.of_nat (List.length nr))) eqn:C.
  - destruct (pop nr) as [i nr1] eqn:P. bind_inv E. bind_inv E.
    apply deleteStmt_run_Return in E0 as (j & -> & T0 & _).
    apply Date_now_Return in E1 as (-> & ->).
    apply pop_Some in P as ->.
    apply IH in E as (deleted & T & -> & -> & X).
    exists (deleted ++ [j]). splits.
    + rewrite T, map_app, <- app_assoc. cbn [trace tick]. rewrite T0. reflexivity.
    + now rewrite app_assoc.
    + rewrite length_app. cbn. lia.
    + exact X.
  - injection E as <- <- <- <-. exists []. splits; auto.
    + now rewrite app_nil_r.
    + cbn. lia.
    + apply andb_false_iff in C as [C|C]; auto.
      right. apply Z.ltb_ge in C. destruct nr; [reflexivity | cbn in C; lia].
Qed.

(** *** A run that returns *)

Lemma runTest_Return fuel s r s' :
  runTest h cfg fuel s = Return r s' ->
  exists nr rs us ds rest k,
    trace s'
    = DeleteSession (session_tag (clock h (ticks s)))
        :: map DeleteComment ds ++ map UpdateComment us
           ++ map SelectComment rs ++ map InsertComment (rev nr) ++ trace s
    /\ nr = rest ++ ds /\ NoDup nr /\ incl rs nr /\ incl us nr
    /\ List.length nr = (chunkSize * k)%nat
    /\ writes r = Z.of_nat (List.length nr)
    /\ reads r = Z.of_nat (List.length rs)
    /\ updates r = Z.of_nat (List.length us)
    /\ deletes r = Z.of_nat (List.length ds)
    /\ totalOperations r = writes r + reads r + updates r + deletes r
    /\ operationsPerSecond r
       = Math_round (div (Num (inject_Z (totalOperations r)))
                       (Num (maxSecondsPerTest cfg * 4)))
    /\ (Qltb (seconds (clock h (3 + ticks s)) - seconds (clock h (2 + ticks s)))
          (maxDuration cfg) = true -> (0 < k)%nat)
    /\ (exists dd, deletesPerSecond r = per_second (deletes r) dd
                   /\ (Qltb dd (maxDuration cfg) = false \/ rest = []))
    /\ exists l,
         comments (file s') = Some l
         /\ Forall (fun row => test_session row
                               <> session_tag (clock h (ticks s))) l.
Proof.
  unfold runTest. intros E.
  bind_inv_as E ? E0. apply Date_now_Return in E0 as (-> & ->).
  bind_inv_as E ? E0. apply Date_now_Return in E0 as (-> & ->).
  do 4 (bind_inv_as E [] E0; apply db_prepare_Return in E0 as ->).
  bind_inv_as E ? E0. apply Date_now_Return in E0 as (-> & ->).
  bind_inv_as E [nr w] E0.
  assert (First : Qltb (seconds (clock h (3 + ticks s))
                        - seconds (clock h (2 + ticks s))) (maxDuration cfg) = true ->
                  nr <> []).
  { destruct fuel as [|fuel]; [discriminate|].
    cbn [write_loop] in E0. unfold bind at 1 in E0. cbn [Date_now tick ticks] in E0.
    intros C. cbn [Nat.add] in C. rewrite C in E0.
    bind_inv_as E0 [nr1 w1] E1.
    apply db_transaction_Return, insert_chunk_Return in E1
      as (ids1 & -> & L1 & _).
    apply write_loop_Return in E0 as (ids & _ & -> & _).
    destruct ids1; [discriminate|]. discriminate. }
  apply write_loop_Return in E0 as (ids & k & -> & -> & L & Tw & K).
  cbn [app] in *.
  destruct K as (ND & _); [split; [constructor | intros x []]|].
  bind_inv_as E ? E0. apply Date_now_Return in E0 as (-> & ->).
  bind_inv_as E ? E0. apply Date_now_Return in E0 as (-> & ->).
  bind_inv_as E [reads rd] E0.
  apply read_loop_Return in E0 as (rs & Tr & -> & Ir & _ & _).
  bind_inv_as E ? E0. apply Date_now_Return in E0 as (-> & ->).
  bind_inv_as E [updates ud] E0.
  apply update_loop_Return in E0 as (us & Tu & -> & Iu & _).
  bind_inv_as E ? E0. apply Date_now_Return in E0 as (-> & ->).
  bind_inv_as E [[deletes dd] rest] E0.
  apply delete_loop_Return in E0 as (ds & Td & Ed & -> & Xd).
  bind_inv_as E [] E0. apply delete_session_Return in E0 as (Tc & _ & l & _ & Fc).
  bind_inv_as E ? E0. injection E0 as <- <-.
  bind_inv_as E ? E0. apply Date_now_Return in E0 as (-> & ->).
  injection E as <- <-.
  exists ids, rs, us, ds, rest, k.
  cbn [writes reads updates deletes totalOperations operationsPerSecond
       deletesPerSecond trace tick file].
  splits; auto; try lia.
  - rewrite Tc, Td. cbn [trace tick]. rewrite Tu. cbn [trace tick].
    rewrite Tr. cbn [trace tick]. rewrite Tw. reflexivity.
  - intros C. apply First in C. destruct ids; [congruence|].
    destruct k; [cbn in L; lia | lia].
  - exists dd. split; [reflexivity | exact Xd].
  - eexists. split; [exact Fc|].
    apply Forall_forall. intros row I. apply filter_In in I as (_ & I).
    apply negb_true_iff, String.eqb_neq in I. exact I.
Qed.

End Steps.

(** ** The workload: claims on a run *)

Lemma Qfloor_index_range (r : Q) (n : nat) :
  (0 <= r)%Q -> (r < 1)%Q -> (0 < n)%nat ->
  0 <= Math_floor (r * inject_Z (Z.of_nat n)) < Z.of_nat n.
Proof.
  intros L U P. unfold Math_floor. split.
  - change 0 with (Qfloor 0). apply Qfloor_resp_le.
    apply Qmult_le_0_compat; auto.
    change 0%Q with (inject_Z 0). rewrite <- Zle_Qle. lia.
  - rewrite Zlt_Qlt. eapply Qle_lt_trans; [apply Qfloor_le|].
    rewrite <- (Qmult_1_l (inject_Z (Z.of_nat n))) at 2.
    apply Qmult_lt_compat_r; auto.
    change 0%Q with (inject_Z 0). rewrite <- Zlt_Qlt. lia.
Qed.

(** With a generator in [[0, 1)] an element of a non-empty array is picked:
    the index is in range. *)
Lemma pick_in_range h nr s :
  nr <> [] ->
  (0 <= random h (draws s))%Q -> (random h (draws s) < 1)%Q ->
  exists i, pick h nr s = Return (Some i) (draw s) /\ In i nr.
Proof.
  intros N L U.
  assert (P : (0 < List.length nr)%nat) by (destruct nr; [congruence | cbn; lia]).
  pose proof (Qfloor_index_range _ _ L U P) as (A & B).
  unfold pick, bind, Math_random, ret, index.
  destruct (Z.ltb_spec (Math_floor (random h (draws s)
                                     * inject_Z (Z.of_nat (List.length nr)))) 0);
    [lia|].
  destruct (nth_error nr (Z.to_nat (Math_floor (random h (draws s)
              * inject_Z (Z.of_nat (List.length nr)))))) as [i|] eqn:E.
  - exists i. split; [reflexivity|]. eapply nth_error_In; eauto.
  - apply nth_error_None in E. lia.
Qed.



(** C6: when a run returns, no row of [comments] carries its session tag. *)
Theorem cleanup_leaves_no_session_rows (h : Host) (cfg : Config)
    (fuel : nat) (s : State) (r : WorkloadResult) (s' : State) :
  runTest h cfg fuel s = Return r s' ->
  forall row, In row (rows (comments (file s'))) ->
              test_session row <> session_tag (clock h (ticks s)).
Proof.
  intros E.
  apply runTest_Return in E
    as (nr & rs & us & ds & rest & k & _ & _ & _ & _ & _ & _ & _ & _ & _ & _
        & _ & _ & _ & _ & l & -> & F).
  cbn [rows]. now apply Forall_forall.
Qed.

Lemma cleanup_leaves_no_session_rows_witness :
  Forall (fun row => test_session row <> "test_0")
    (rows (comments (file state_after_first_run))).
Proof.
  apply Forall_forall.
  apply (cleanup_leaves_no_session_rows host_1s source_config 50 ready_state
           result_of_first_run state_after_first_run).
  vm_compute. reflexivity.
Defined.

(** C7: [totalOperations] is the sum of the four counters and
    [operationsPerSecond] is [Math.round(totalOperations / (maxDuration * 4))];
    for a positive budget that is the integer nearest to the quotient (the
    upper one when the quotient is halfway). *)
Theorem total_and_overall_rate (h : Host) (cfg : Config)
    (fuel : nat) (s : State) (r : WorkloadResult) (s' : State) :
  runTest h cfg fuel s = Return r s' ->
  totalOperations r = writes r + reads r + updates r + deletes r
  /\ operationsPerSecond r
     = Math_round (div (Num (inject_Z (totalOperations r)))
                     (Num (maxSecondsPerTest cfg * 4)))
  /\ ((0 < maxSecondsPerTest cfg)%Q ->
      exists n : Z,
        operationsPerSecond r = Num (inject_Z n)
        /\ (inject_Z (totalOperations r) / (maxSecondsPerTest cfg * 4) - (1 # 2)
            < inject_Z n)%Q
        /\ (inject_Z n
            <= inject_Z (totalOperations r) / (maxSecondsPerTest cfg * 4) + (1 # 2))%Q).
Proof.
  intros E.
  apply runTest_Return in E
    as (nr & rs & us & ds & rest & k & _ & _ & _ & _ & _ & _ & _ & _ & _ & _
        & Et & Eo & _).
  splits; auto.
  intros P.
  exists (Qround_half_up (inject_Z (totalOperations r) / (maxSecondsPerTest cfg * 4))).
  split; [| apply Qround_half_up_nearest].
  rewrite Eo. unfold div.
  destruct (Qeq_bool (maxSecondsPerTest cfg * 4) 0) eqn:Z0; [|reflexivity].
  apply Qeq_bool_iff in Z0. exfalso.
  assert (0 < maxSecondsPerTest cfg * 4)%Q as Q4.
  { apply Qmult_lt_0_compat; [exact P | reflexivity]. }
  rewrite Z0 in Q4. now apply Qlt_irrefl in Q4.
Qed.

Lemma total_and_overall_rate_witness :
  totalOperations result_of_first_run = 209
  /\ operationsPerSecond result_of_first_run = Num (inject_Z 17).
Proof.
  pose proof (total_and_overall_rate host_1s source_config 50 ready_state
                result_of_first_run state_after_first_run eq_refl) as (T & O & _).
  split; [exact T | exact O].
Defined.

(** ** The write phase *)

Lemma write_loop_exit h cfg fuel ws tag ts nr w s :
  Qltb (seconds (clock h (ticks s)) - ws) (maxDuration cfg) = false ->
  write_loop h cfg (S fuel) ws tag ts nr w s = Return (nr, w) (tick s).
Proof.
  intros C. cbn [write_loop]. unfold bind. cbn [Date_now]. now rewrite C.
Qed.

Lemma write_loop_entered h cfg fuel ws tag ts nr w s nr' w' s' :
  Qltb (seconds (clock h (ticks s)) - ws) (maxDuration cfg) = true ->
  write_loop h cfg fuel ws tag ts nr w s = Return (nr', w') s' ->
  (List.length nr + chunkSize <= List.length nr')%nat.
Proof.
  intros C E. destruct fuel as [|fuel]; [discriminate|].
  cbn [write_loop] in E. unfold bind at 1 in E. cbn [Date_now] in E.
  rewrite C in E. bind_inv_as E [nr1 w1] E1.
  apply db_transaction_Return, insert_chunk_Return in E1 as (ids1 & -> & L1 & _).
  apply write_loop_Return in E as (ids & _ & -> & _).
  rewrite !length_app. lia.
Qed.

(** C10, as the code has it: when the write loop ends, [newRecords] has as
    many elements as [writes] counts, and [writes] is a multiple of the batch
    size 100. It is a positive multiple exactly when the loop test succeeds
    at the first reading of the clock, that is when that reading is less than
    the budget after [writeStart]; otherwise nothing was written. The
    [writes] field of the result of [runTest] is that counter. *)
Theorem write_phase_counts_full_batches (h : Host) (cfg : Config) :
  (forall fuel writeStart tag ts s newRecords writes s',
      write_loop h cfg fuel writeStart tag ts [] 0 s
      = Return (newRecords, writes) s' ->
      Z.of_nat (List.length newRecords) = writes
      /\ exists k : nat,
           writes = 100 * Z.of_nat k
           /\ ((seconds (clock h (ticks s)) - writeStart < maxSecondsPerTest cfg)%Q ->
               (0 < k)%nat)
           /\ ((maxSecondsPerTest cfg <= seconds (clock h (ticks s)) - writeStart)%Q ->
               k = 0%nat))
  /\ (forall fuel s r s',
         runTest h cfg fuel s = Return r s' ->
         exists k : nat,
           writes r = 100 * Z.of_nat k
           /\ ((seconds (clock h (3 + ticks s)) - seconds (clock h (2 + ticks s))
                < maxSecondsPerTest cfg)%Q ->
               (0 < k)%nat)).
Proof.
  split.
  - intros fuel writeStart tag ts s newRecords writes s' E. pose proof E as E'.
    apply write_loop_Return in E' as (ids & k & -> & -> & L & _).
    cbn [app]. split; [lia|]. exists k. splits.
    + rewrite L. unfold chunkSize. lia.
    + intros C. apply Qltb_lt in C.
      apply (write_loop_entered _ _ _ _ _ _ _ _ _ _ _ _ C) in E.
      cbn [app List.length] in E. unfold chunkSize in *. lia.
    + intros C. apply Qltb_ge in C. destruct fuel as [|fuel]; [discriminate|].
      rewrite (write_loop_exit _ _ _ _ _ _ _ _ _ C) in E.
      injection E as E _ _. cbn [app] in E. subst ids.
      cbn in L. unfold chunkSize in L. lia.
  - intros fuel s r s' E.
    apply runTest_Return in E
      as (nr & rs & us & ds & rest & k & _ & _ & _ & _ & _ & L & W & _ & _ & _
          & _ & _ & F & _).
    exists k. split.
    + rewrite W, L. unfold chunkSize. lia.
    + intros C. apply F. now apply Qltb_lt.
Qed.

Lemma write_phase_counts_full_batches_witness :
  Z.of_nat (List.length ids_of_first_run) = 200
  /\ exists k : nat,
       200 = 100 * Z.of_nat k
       /\ ((seconds (clock host_1s (ticks write_entry)) - seconds 2000
            < maxSecondsPerTest source_config)%Q -> (0 < k)%nat)
       /\ ((maxSecondsPerTest source_config
            <= seconds (clock host_1s (ticks write_entry)) - seconds 2000)%Q ->
           k = 0%nat).
Proof.
  apply (proj1 (write_phase_counts_full_batches host_1s source_config)
           50%nat (seconds 2000) "test_0" 1 write_entry
           ids_of_first_run 200 state_after_first_write).
  vm_compute. reflexivity.
Defined.

(** C10 as stated fails: the budget is the positive 3 seconds of the source,
    the clock jumps by three seconds between the reading that sets
    [writeStart] and the first loop test, and the write loop ends with
    [writes = 0]. The same happens on a clock that merely advances by a
    millisecond per reading when the positive budget is below that. *)
Lemma positive_budget_zero_writes :
  ((0 < maxSecondsPerTest source_config)%Q
   /\ write_loop host_jump source_config 50 (seconds (clock host_jump 2))
        "test_0" 0 [] 0 write_entry
      = Return ([], 0) (tick write_entry))
  /\ ((0 < maxSecondsPerTest half_ms_budget)%Q
      /\ write_loop host_1ms half_ms_budget 50 (seconds (clock host_1ms 2))
           "test_0" 0 [] 0 write_entry
         = Return ([], 0) (tick write_entry)).
Proof. repeat split. Qed.

(** ** Runs with nothing to do *)

Section Exits.

Variable h : Host.
Variable cfg : Config.

Lemma read_loop_exit fuel rs nr n d s :
  Qltb d (maxDuration cfg) = false ->
  read_loop h cfg (S fuel) rs nr n d s = Return (n, d) s.
Proof. intros C. cbn [read_loop]. now rewrite C. Qed.

Lemma update_loop_exit fuel us nr n d s :
  Qltb d (maxDuration cfg) = false ->
  update_loop h cfg (S fuel) us nr n d s = Return (n, d) s.
Proof. intros C. cbn [update_loop]. now rewrite C. Qed.

Lemma delete_loop_exit fuel ds nr n d s :
  Qltb d (maxDuration cfg) = false \/ nr = [] ->
  delete_loop h cfg (S fuel) ds nr n d s = Return (n, d, nr) s.
Proof.
  intros C. cbn [delete_loop].
  assert (Qltb d (maxDuration cfg) && (0 <? Z.of_nat (List.length nr)) = false) as ->.
  { destruct C as [-> | ->]; [reflexivity | apply andb_false_r]. }
  reflexivity.
Qed.

Lemma delete_session_ok tag s l :
  db s <> None -> comments (file s) = Some l ->
  delete_session tag s
  = Return tt
      (log (DeleteSession tag)
         (set_file
            (with_comments
               (Some (filter (fun r => negb (String.eqb (test_session r) tag)) l))
               (comments_seq (file s)) (file s)) s)).
Proof.
  intros D E. unfold delete_session.
  erewrite bind_eq by (apply db_prepare_ok; [assumption | cbn; now rewrite E]).
  now rewrite E.
Qed.

Lemma seconds_le a b : a <= b -> (seconds a <= seconds b)%Q.
Proof.
  intros L. unfold seconds, Qdiv. apply Qmult_le_compat_r.
  - now rewrite <- Zle_Qle.
  - discriminate.
Qed.

Lemma zero_budget_runTest fuel s :
  (maxSecondsPerTest cfg == 0)%Q ->
  clock h (2 + ticks s) <= clock h (3 + ticks s) ->
  db s <> None -> comments (file s) <> None ->
  exists r s',
    runTest h cfg (S fuel) s = Return r s'
    /\ trace s' = DeleteSession (session_tag (clock h (ticks s))) :: trace s
    /\ writes r = 0 /\ reads r = 0 /\ updates r = 0 /\ deletes r = 0
    /\ (writesPerSecond r = NaN \/ writesPerSecond r = Num (inject_Z 0))
    /\ readsPerSecond r = NaN
    /\ updatesPerSecond r = NaN
    /\ deletesPerSecond r = NaN
    /\ operationsPerSecond r = NaN.
Proof.
  intros B Mono D T.
  destruct (comments (file s)) as [l|] eqn:El; [clear T | congruence].
  assert (Z0 : Qltb 0 (maxDuration cfg) = false).
  { apply Qltb_ge. unfold maxDuration. rewrite B. apply Qle_refl. }
  unfold runTest.
  erewrite bind_eq by reflexivity.
  erewrite bind_eq by reflexivity.
  do 4 (erewrite bind_eq
          by (apply db_prepare_ok; cbn [db file tick table_exists];
              [assumption | now rewrite El])).
  erewrite bind_eq by reflexivity.
  erewrite bind_eq.
  2:{ apply write_loop_exit. apply Qltb_ge. unfold maxDuration. rewrite B.
      cbn [ticks tick].
      rewrite <- (Qplus_opp_r (seconds (clock h (S (S (ticks s)))))).
      apply Qplus_le_l. apply seconds_le. exact Mono. }
  cbv beta iota.
  erewrite bind_eq by reflexivity.
  erewrite bind_eq by reflexivity.
  erewrite bind_eq by (apply read_loop_exit; exact Z0).
  cbv beta iota.
  erewrite bind_eq by reflexivity.
  erewrite bind_eq by (apply update_loop_exit; exact Z0).
  cbv beta iota.
  erewrite bind_eq by reflexivity.
  erewrite bind_eq by (apply delete_loop_exit; now left).
  cbv beta iota.
  erewrite bind_eq by (apply delete_session_ok with (l := l);
                       cbn [db file tick]; assumption).
  erewrite bind_eq by reflexivity.
  erewrite bind_eq by reflexivity.
  eexists. eexists. split; [reflexivity|].
  cbn [trace tick log set_file writes reads updates deletes writesPerSecond
       readsPerSecond updatesPerSecond deletesPerSecond operationsPerSecond].
  splits; try reflexivity.
  - rewrite per_second_zero. destruct (Qeq_bool _ 0); auto.
  - unfold div.
    assert (Qeq_bool (maxDuration cfg * 4) 0 = true) as ->; [|reflexivity].
    apply Qeq_bool_iff. unfold maxDuration. rewrite B. reflexivity.
Qed.

End Exits.




(** ** More fuel, same result *)

Section Fuel.

Variable h : Host.
Variable cfg : Config.

Lemma write_loop_mono fuel fuel' ws tag ts nr w s x s' :
  (fuel <= fuel')%nat ->
  write_loop h cfg fuel ws tag ts nr w s = Return x s' ->
  write_loop h cfg fuel' ws tag ts nr w s = Return x s'.
Proof.
  revert fuel' nr w s. induction fuel as [|fuel IH]; intros fuel' nr w s L E;
    [discriminate|].
  destruct fuel' as [|fuel']; [lia|].
  cbn [write_loop] in *. bind_inv_as E now E0.
  rewrite (bind_eq _ _ _ _ _ E0).
  destruct (Qltb _ _); [|exact E].
  bind_inv_as E [nr1 w1] E1. rewrite (bind_eq _ _ _ _ _ E1).
  apply IH; [lia | exact E].
Qed.

Lemma read_loop_mono fuel fuel' rs nr n d s x s' :
  (fuel <= fuel')%nat ->
  read_loop h cfg fuel rs nr n d s = Return x s' ->
  read_loop h cfg fuel' rs nr n d s = Return x s'.
Proof.
  revert fuel' n d s. induction fuel as [|fuel IH]; intros fuel' n d s L E;
    [discriminate|].
  destruct fuel' as [|fuel']; [lia|].
  cbn [read_loop] in *. destruct (Qltb _ _); [|exact E].
  bind_inv_as E i E0. rewrite (bind_eq _ _ _ _ _ E0).
  bind_inv_as E row E1. rewrite (bind_eq _ _ _ _ _ E1).
  bind_inv_as E now E2. rewrite (bind_eq _ _ _ _ _ E2).
  apply IH; [lia | exact E].
Qed.

Lemma update_loop_mono fuel fuel' us nr n d s x s' :
  (fuel <= fuel')%nat ->
  update_loop h cfg fuel us nr n d s = Return x s' ->
  update_loop h cfg fuel' us nr n d s = Return x s'.
Proof.
  revert fuel' n d s. induction fuel as [|fuel IH]; intros fuel' n d s L E;
    [discriminate|].
  destruct fuel' as [|fuel']; [lia|].
  cbn [update_loop] in *. destruct (Qltb _ _); [|exact E].
  bind_inv_as E i E0. rewrite (bind_eq _ _ _ _ _ E0).
  bind_inv_as E c E1. rewrite (bind_eq _ _ _ _ _ E1).
  bind_inv_as E u E2. rewrite (bind_eq _ _ _ _ _ E2).
  bind_inv_as E now E3. rewrite (bind_eq _ _ _ _ _ E3).
  apply IH; [lia | exact E].
Qed.

Lemma delete_loop_mono fuel fuel' ds nr n d s x s' :
  (fuel <= fuel')%nat ->
  delete_loop h cfg fuel ds nr n d s = Return x s' ->
  delete_loop h cfg fuel' ds nr n d s = Return x s'.
Proof.
  revert fuel' nr n d s. induction fuel as [|fuel IH]; intros fuel' nr n d s L E;
    [discriminate|].
  destruct fuel' as [|fuel']; [lia|].
  cbn [delete_loop] in *. destruct (_ && _); [|exact E].
  destruct (pop nr) as [i nr1].
  bind_inv_as E u E0. rewrite (bind_eq _ _ _ _ _ E0).
  bind_inv_as E now E1. rewrite (bind_eq _ _ _ _ _ E1).
  apply IH; [lia | exact E].
Qed.

End Fuel.

(** ** Termination of a run *)

Section Termination.

Variable h : Host.
Variable cfg : Config.

Hypothesis random_ok : random_in_range h.
Hypothesis clock_mono : clock_monotone h.

Lemma seconds_lt_inv a b : (seconds a < seconds b)%Q -> a < b.
Proof.
  intros L. destruct (Z.lt_ge_cases a b) as [|G]; auto.
  apply seconds_le in G. exfalso. eapply Qlt_irrefl, Qlt_le_trans; eauto.
Qed.

(** A loop test that succeeds at reading [t] comes before the deadline [N]. *)
Lemma before_deadline N start t :
  (maxDuration cfg + start <= seconds (clock h N))%Q ->
  Qltb (seconds (clock h t) - start) (maxDuration cfg) = true ->
  (t < N)%nat.
Proof.
  intros Dl C. apply Qltb_lt in C.
  assert (seconds (clock h t) < seconds (clock h N))%Q as L.
  { eapply Qlt_le_trans; [|exact Dl].
    apply Qplus_lt_l with (z := (- start)%Q).
    eapply Qlt_le_trans; [exact C|].
    rewrite <- Qplus_assoc, Qplus_opp_r, Qplus_0_r. apply Qle_refl. }
  apply seconds_lt_inv in L.
  destruct (Nat.lt_ge_cases t N) as [|G]; auto.
  apply clock_mono in G. lia.
Qed.

Lemma random_string_eq a b s :
  exists x, random_string h a b s = Return x (draw (draw s)).
Proof. eexists. reflexivity. Qed.

Lemma insert_chunk_total n tag ts nr w s :
  comments (file s) <> None ->
  exists x s', insert_chunk h n tag ts nr w s = Return x s'.
Proof.
  revert nr w s. induction n as [|n IH]; intros nr w s T.
  - eexists. eexists. reflexivity.
  - cbn [insert_chunk].
    destruct (random_string_eq 16 5 s) as (a & Ea).
    rewrite (bind_eq _ _ _ _ _ Ea).
    destruct (random_string_eq 91 10 (draw (draw s))) as (c & Ec).
    rewrite (bind_eq _ _ _ _ _ Ec).
    destruct (comments (file s)) as [l|] eqn:El; [|congruence].
    erewrite bind_eq by (unfold insertStmt_run; cbn [file draw]; rewrite El;
                         reflexivity).
    apply IH. cbn. discriminate.
Qed.

Lemma db_transaction_eq {A} (body : M A) s a s' :
  body s = Return a s' -> db_transaction body s = Return a s'.
Proof. unfold db_transaction. now intros ->. Qed.

Lemma write_loop_total N ws tag ts :
  (maxDuration cfg + ws <= seconds (clock h N))%Q ->
  forall fuel nr w s,
    (1 + (N - ticks s) <= fuel)%nat ->
    comments (file s) <> None ->
    exists x s', write_loop h cfg fuel ws tag ts nr w s = Return x s'.
Proof.
  intros Dl. induction fuel as [|fuel IH]; intros nr w s L T; [lia|].
  cbn [write_loop]. erewrite bind_eq by reflexivity.
  destruct (Qltb _ _) eqn:C.
  - apply (before_deadline N) in C; [|exact Dl].
    destruct (insert_chunk_total chunkSize tag ts nr w (tick s) T)
      as ([nr1 w1] & s1 & E1).
    rewrite (bind_eq _ _ _ _ _ (db_transaction_eq _ _ _ _ E1)).
    pose proof (stable_Return _ _ _ _ (stable_insert_chunk h _ _ _ _ _) E1)
      as (_ & _ & _ & _ & F).
    apply insert_chunk_Return in E1 as (_ & _ & _ & _ & _ & K & _).
    apply IH.
    + rewrite K. cbn [ticks tick]. lia.
    + apply F. exact T.
  - eexists. eexists. reflexivity.
Qed.

Lemma selectStmt_get_eq i s :
  comments (file s) <> None ->
  exists x, selectStmt_get (Some i) s = Return x (log (SelectComment i) s).
Proof.
  intros T. unfold selectStmt_get, bind. cbn [bind_parameter ret].
  destruct (comments (file s)); [|congruence]. eexists. reflexivity.
Qed.

Lemma updateStmt_run_total c i s :
  comments (file s) <> None ->
  exists s', updateStmt_run c (Some i) s = Return tt s'
             /\ ticks s' = ticks s /\ draws s' = draws s
             /\ comments (file s') <> None.
Proof.
  intros T. unfold updateStmt_run, bind. cbn [bind_parameter ret].
  destruct (comments (file s)); [|congruence]. eexists. split; [reflexivity|].
  cbn. repeat split. discriminate.
Qed.

Lemma deleteStmt_run_total i s :
  comments (file s) <> None ->
  exists s', deleteStmt_run (Some i) s = Return tt s'
             /\ ticks s' = ticks s
             /\ comments (file s') <> None.
Proof.
  intros T. unfold deleteStmt_run, bind. cbn [bind_parameter ret].
  destruct (comments (file s)); [|congruence]. eexists. split; [reflexivity|].
  cbn. repeat split. discriminate.
Qed.

Lemma read_loop_total N rs nr :
  nr <> [] ->
  (maxDuration cfg + rs <= seconds (clock h N))%Q ->
  forall fuel n d s,
    (Qltb d (maxDuration cfg) = true -> (2 + (N - ticks s) <= fuel)%nat) ->
    (1 <= fuel)%nat ->
    comments (file s) <> None ->
    exists x s', read_loop h cfg fuel rs nr n d s = Return x s'.
Proof.
  intros Ne Dl. induction fuel as [|fuel IH]; intros n d s L P T; [lia|].
  cbn [read_loop]. destruct (Qltb d (maxDuration cfg)) eqn:C.
  - specialize (L eq_refl).
    destruct (pick_in_range h nr s Ne (proj1 (random_ok _)) (proj2 (random_ok _)))
      as (i & Ei & _).
    rewrite (bind_eq _ _ _ _ _ Ei).
    destruct (selectStmt_get_eq i (draw s) T) as (row & Er).
    rewrite (bind_eq _ _ _ _ _ Er).
    erewrite bind_eq by reflexivity.
    apply IH; cbn [ticks tick log draw file]; auto; [|lia].
    intros C'. apply (before_deadline N) in C'; [|exact Dl]. lia.
  - eexists. eexists. reflexivity.
Qed.

Lemma update_loop_total N us nr :
  nr <> [] ->
  (maxDuration cfg + us <= seconds (clock h N))%Q ->
  forall fuel n d s,
    (Qltb d (maxDuration cfg) = true -> (2 + (N - ticks s) <= fuel)%nat) ->
    (1 <= fuel)%nat ->
    comments (file s) <> None ->
    exists x s', update_loop h cfg fuel us nr n d s = Return x s'.
Proof.
  intros Ne Dl. induction fuel as [|fuel IH]; intros n d s L P T; [lia|].
  cbn [update_loop]. destruct (Qltb d (maxDuration cfg)) eqn:C.
  - specialize (L eq_refl).
    destruct (pick_in_range h nr s Ne (proj1 (random_ok _)) (proj2 (random_ok _)))
      as (i & Ei & _).
    rewrite (bind_eq _ _ _ _ _ Ei).
    destruct (random_string_eq 91 10 (draw s)) as (c & Ec).
    rewrite (bind_eq _ _ _ _ _ Ec).
    destruct (updateStmt_run_total c i (draw (draw (draw s))) T)
      as (s1 & E1 & K1 & _ & T1).
    rewrite (bind_eq _ _ _ _ _ E1).
    erewrite bind_eq by reflexivity.
    apply IH; cbn [ticks tick file]; auto; [|lia].
    intros C'. rewrite K1 in C'. cbn [ticks draw] in C'.
    apply (before_deadline N) in C'; [|exact Dl]. rewrite K1. cbn [ticks draw]. lia.
  - eexists. eexists. reflexivity.
Qed.

Lemma delete_loop_total N ds :
  (maxDuration cfg + ds <= seconds (clock h N))%Q ->
  forall fuel nr n d s,
    (Qltb d (maxDuration cfg) = true -> (2 + (N - ticks s) <= fuel)%nat) ->
    (1 <= fuel)%nat ->
    comments (file s) <> None ->
    exists x s', delete_loop h cfg fuel ds nr n d s = Return x s'.
Proof.
  intros Dl. induction fuel as [|fuel IH]; intros nr n d s L P T; [lia|].
  cbn [delete_loop].
  destruct (Qltb d (maxDuration cfg) && (0 <? Z.of_nat (List.length nr))) eqn:C.
  - apply andb_true_iff in C as (C & Ne). specialize (L C).
    destruct (pop nr) as [i nr1] eqn:Ep.
    assert (exists j, i = Some j) as (j & ->).
    { unfold pop in Ep. destruct (rev nr) eqn:Er.
      - apply (f_equal (@rev Z)) in Er. rewrite rev_involutive in Er. subst nr.
        discriminate.
      - injection Ep as <- _. eauto. }
    destruct (deleteStmt_run_total j s T) as (s1 & E1 & K1 & T1).
    rewrite (bind_eq _ _ _ _ _ E1).
    erewrite bind_eq by reflexivity.
    apply IH; cbn [ticks tick file]; auto; [|lia].
    intros C'. rewrite K1 in C'.
    apply (before_deadline N) in C'; [|exact Dl]. rewrite K1. lia.
  - eexists. eexists. reflexivity.
Qed.

Lemma frame_ready s s' :
  frame s s' -> db s <> None -> comments (file s) <> None ->
  db s' <> None /\ comments (file s') <> None.
Proof. intros (F1 & _ & _ & _ & F5) D T. split; [congruence | auto]. Qed.

Hypothesis clock_grows : clock_unbounded h.
Hypothesis clock_steps : clock_steps_below_budget h cfg.

(** With enough fuel a run on an open database returns. *)
Lemma runTest_total s :
  db s <> None -> comments (file s) <> None ->
  exists fuel r s', runTest h cfg fuel s = Return r s'.
Proof.
  intros D T.
  (* write *)
  set (s3 := tick (tick (tick s))).
  set (ws := seconds (clock h (S (S (ticks s))))).
  destruct (clock_grows (maxDuration cfg + ws)%Q) as (N1 & Dl1).
  destruct (write_loop_total N1 ws (session_tag (clock h (ticks s)))
              (Math_floor (seconds (clock h (S (ticks s))))) Dl1
              (1 + N1)%nat [] 0 s3) as ([nr w] & s4 & E1); [lia | exact T |].
  assert (Ne : nr <> []).
  { assert (C : Qltb (seconds (clock h (ticks s3)) - ws) (maxDuration cfg) = true)
      by apply Qltb_lt, clock_steps.
    apply (write_loop_entered _ _ _ _ _ _ _ _ _ _ _ _ C) in E1.
    unfold chunkSize in E1. destruct nr; [cbn in E1; lia | discriminate]. }
  destruct (frame_ready s3 s4 (stable_Return _ _ _ _ (stable_write_loop _ _ _ _ _ _ _ _) E1)
              D T) as (D4 & T4).
  (* read *)
  set (s6 := tick (tick s4)).
  set (rs := seconds (clock h (S (ticks s4)))).
  destruct (clock_grows (maxDuration cfg + rs)%Q) as (N2 & Dl2).
  destruct (read_loop_total N2 rs nr Ne Dl2 (2 + N2)%nat 0 0%Q s6)
    as ([reads rd] & s7 & E2); [lia | lia | exact T4 |].
  destruct (frame_ready s6 s7 (stable_Return _ _ _ _ (stable_read_loop _ _ _ _ _ _ _) E2)
              D4 T4) as (D7 & T7).
  (* update *)
  set (s8 := tick s7).
  set (us := seconds (clock h (ticks s7))).
  destruct (clock_grows (maxDuration cfg + us)%Q) as (N3 & Dl3).
  destruct (update_loop_total N3 us nr Ne Dl3 (2 + N3)%nat 0 0%Q s8)
    as ([updates ud] & s9 & E3); [lia | lia | exact T7 |].
  destruct (frame_ready s8 s9 (stable_Return _ _ _ _ (stable_update_loop _ _ _ _ _ _ _) E3)
              D7 T7) as (D9 & T9).
  (* delete *)
  set (s10 := tick s9).
  set (ds := seconds (clock h (ticks s9))).
  destruct (clock_grows (maxDuration cfg + ds)%Q) as (N4 & Dl4).
  destruct (delete_loop_total N4 ds Dl4 (2 + N4)%nat nr 0 0%Q s10)
    as ([[deletes dd] rest] & s11 & E4); [lia | lia | exact T9 |].
  destruct (frame_ready s10 s11 (stable_Return _ _ _ _ (stable_delete_loop _ _ _ _ _ _ _) E4)
              D9 T9) as (D11 & T11).
  destruct (comments (file s11)) as [l|] eqn:El; [|congruence].
  destruct (comments (file s)) as [l0|] eqn:El0; [|congruence].
  (* one fuel for the four loops *)
  set (fuel := ((1 + N1) + (2 + N2) + (2 + N3) + (2 + N4))%nat).
  apply (write_loop_mono _ _ _ fuel) in E1; [|lia].
  apply (read_loop_mono _ _ _ fuel) in E2; [|lia].
  apply (update_loop_mono _ _ _ fuel) in E3; [|lia].
  apply (delete_loop_mono _ _ _ fuel) in E4; [|lia].
  exists fuel. unfold runTest.
  erewrite bind_eq by reflexivity.
  erewrite bind_eq by reflexivity.
  do 4 (erewrite bind_eq
          by (apply db_prepare_ok; cbn [db file tick table_exists];
              [assumption | now rewrite El0])).
  erewrite bind_eq by reflexivity.
  erewrite bind_eq by exact E1. cbv beta iota.
  erewrite bind_eq by reflexivity.
  erewrite bind_eq by reflexivity.
  erewrite bind_eq by exact E2. cbv beta iota.
  erewrite bind_eq by reflexivity.
  erewrite bind_eq by exact E3. cbv beta iota.
  erewrite bind_eq by reflexivity.
  erewrite bind_eq by exact E4. cbv beta iota.
  erewrite bind_eq by (apply delete_session_ok with (l := l); assumption).
  erewrite bind_eq by reflexivity.
  erewrite bind_eq by reflexivity.
  eexists. eexists. reflexivity.
Qed.

End Termination.

(** ** The host [host_1s] *)

Lemma seconds_1000 (m : Z) : (seconds (1000 * m) == inject_Z m)%Q.
Proof. unfold seconds. rewrite inject_Z_mult. field. Qed.

Lemma host_1s_random : random_in_range host_1s.
Proof.
  intros i. cbn [random host_1s]. unfold Qle, Qlt. cbn [Qnum Qden].
  pose proof (Nat.mod_upper_bound i 7). lia.
Qed.

Lemma host_1s_monotone : clock_monotone host_1s.
Proof. intros i j L. cbn [clock host_1s]. lia. Qed.

Lemma host_1s_unbounded : clock_unbounded host_1s.
Proof.
  intros q. exists (Z.to_nat (Qceiling q)). cbn [clock host_1s].
  rewrite seconds_1000. eapply Qle_trans; [apply Qle_ceiling|].
  rewrite <- Zle_Qle. lia.
Qed.

Lemma host_1s_steps : clock_steps_below_budget host_1s source_config.
Proof.
  intros i. cbn [clock host_1s maxSecondsPerTest source_config].
  rewrite !seconds_1000, Nat2Z.inj_succ. unfold Z.succ.
  rewrite inject_Z_plus. ring_simplify. reflexivity.
Qed.

(** ** The freshness test *)

Lemma getCachedTest_miss h cfg fuel s s0 :
  run_start h cfg s s0 ->
  getCachedTest h cfg fuel s
  = match runTest h cfg fuel s0 with
    | Return r s1 => Return (Object r) (store_result h r s1)
    | Throw e s1 => Throw e s1
    | OutOfFuel => OutOfFuel
    end
  /\ db s0 <> None /\ comments (file s0) <> None.
Proof.
  assert (T : test_results_cache (file (after_init s)) <> None).
  { cbn. now destruct (test_results_cache (file s)). }
  assert (C : comments (file (after_init s)) <> None).
  { cbn. now destruct (comments (file s)). }
  intros [E | row E A]; rewrite getCachedTest_eq, E.
  - rewrite refresh_eq; [| discriminate | exact T]. splits; auto. discriminate.
  - apply Qltb_ge in A. unfold is_fresh. unfold age in A. rewrite A.
    rewrite refresh_eq; [| discriminate | exact T]. splits; auto. discriminate.
Qed.



(** ** The specs reporter *)

Lemma permille_finite (x : Q) :
  permille (Num x) = Num (inject_Z (Qround_half_up (x * 1000)) / 10).
Proof. reflexivity. Qed.

Lemma Qround_half_up_le (x y : Q) :
  (x <= y)%Q -> Qround_half_up x <= Qround_half_up y.
Proof.
  intros L. unfold Qround_half_up. apply Qfloor_resp_le.
  now apply Qplus_le_l.
Qed.

Lemma tenth_bounds (k lo hi : Z) :
  lo <= k <= hi ->
  (inject_Z lo / 10 <= inject_Z k / 10)%Q /\ (inject_Z k / 10 <= inject_Z hi / 10)%Q.
Proof.
  intros (A & B). unfold Qdiv. split; apply Qmult_le_compat_r;
    try discriminate; now rewrite <- Zle_Qle.
Qed.

(** A ratio of [used] to [total] in [[0, 1]] is reported as a percentage in
    [[0, 100]] with one decimal. *)
Lemma permille_ratio (used total : Z) :
  0 < total -> 0 <= used <= total ->
  exists k : Z,
    permille (div (Num (inject_Z used)) (Num (inject_Z total)))
    = Num (inject_Z k / 10)
    /\ 0 <= k <= 1000
    /\ k = Qround_half_up (inject_Z used / inject_Z total * 1000).
Proof.
  intros P (L & U).
  assert (T0 : (0 < inject_Z total)%Q).
  { change 0%Q with (inject_Z 0). now rewrite <- Zlt_Qlt. }
  assert (N0 : Qeq_bool (inject_Z total) 0 = false).
  { destruct (Qeq_bool (inject_Z total) 0) eqn:E; auto.
    apply Qeq_bool_iff in E. rewrite E in T0. now apply Qlt_irrefl in T0. }
  exists (Qround_half_up (inject_Z used / inject_Z total * 1000)).
  unfold div. rewrite N0, permille_finite. splits; auto.
  - change 0 with (Qround_half_up 0). apply Qround_half_up_le.
    apply Qmult_le_0_compat; [|discriminate].
    apply Qle_shift_div_l; auto. rewrite Qmult_0_l.
    change 0%Q with (inject_Z 0). now rewrite <- Zle_Qle.
  - change 1000 with (Qround_half_up 1000). apply Qround_half_up_le.
    rewrite <- (Qmult_1_l 1000) at 2.
    apply Qmult_le_compat_r; [|discriminate].
    apply Qle_shift_div_r; auto. rewrite Qmult_1_l. now rewrite <- Zle_Qle.
Qed.




(** * Further properties of [database.js] *)

(** ** The phases of a run that returns *)

Section Phases.

Variable h : Host.
Variable cfg : Config.

Lemma runTest_phases fuel s r s' :
  runTest h cfg fuel s = Return r s' ->
  exists nr w s4 rn rd s7 un ud s9 dn dd rest s11 s12,
    write_loop h cfg fuel (seconds (clock h (S (S (ticks s)))))
      (session_tag (clock h (ticks s)))
      (Math_floor (seconds (clock h (S (ticks s))))) [] 0 (tick (tick (tick s)))
    = Return (nr, w) s4
    /\ read_loop h cfg fuel (seconds (clock h (S (ticks s4)))) nr 0 0%Q
         (tick (tick s4))
       = Return (rn, rd) s7
    /\ update_loop h cfg fuel (seconds (clock h (ticks s7))) nr 0 0%Q (tick s7)
       = Return (un, ud) s9
    /\ delete_loop h cfg fuel (seconds (clock h (ticks s9))) nr 0 0%Q (tick s9)
       = Return (dn, dd, rest) s11
    /\ delete_session (session_tag (clock h (ticks s))) s11 = Return tt s12
    /\ s' = tick s12
    /\ db s <> None /\ comments (file s) <> None
    /\ writes r = w /\ reads r = rn /\ updates r = un /\ deletes r = dn
    /\ writesPerSecond r
       = per_second w (seconds (clock h (ticks s4))
                       - seconds (clock h (S (S (ticks s)))))
    /\ readsPerSecond r = per_second rn rd
    /\ updatesPerSecond r = per_second un ud
    /\ deletesPerSecond r = per_second dn dd
    /\ duration r
       = round2 (Num (seconds (clock h (ticks s12))
                      - seconds (clock h (S (S (ticks s)))))).
Proof.
  unfold runTest. intros E.
  bind_inv_as E ? E0. apply Date_now_Return in E0 as (-> & ->).
  bind_inv_as E ? E0. apply Date_now_Return in E0 as (-> & ->).
  bind_inv_as E [] E0.
  assert (D : db s <> None /\ comments (file s) <> None).
  { unfold db_prepare in E0. cbn [db file tick table_exists] in E0.
    destruct (db s); [|discriminate].
    destruct (comments (file s)); [|discriminate]. split; discriminate. }
  apply db_prepare_Return in E0 as ->.
  do 3 (bind_inv_as E [] E0; apply db_prepare_Return in E0 as ->).
  bind_inv_as E ? E0. apply Date_now_Return in E0 as (-> & ->).
  bind_inv_as E [nr w] Ew.
  bind_inv_as E ? E0. apply Date_now_Return in E0 as (-> & ->).
  bind_inv_as E ? E0. apply Date_now_Return in E0 as (-> & ->).
  bind_inv_as E [reads rd] Er.
  bind_inv_as E ? E0. apply Date_now_Return in E0 as (-> & ->).
  bind_inv_as E [updates ud] Eu.
  bind_inv_as E ? E0. apply Date_now_Return in E0 as (-> & ->).
  bind_inv_as E [[deletes dd] rest] Ed.
  bind_inv_as E [] Ec.
  bind_inv_as E ? E0. injection E0 as <- <-.
  bind_inv_as E ? E0. apply Date_now_Return in E0 as (-> & ->).
  injection E as <- <-.
  repeat eexists; try eassumption; try reflexivity; apply D.
Qed.

End Phases.

(** ** The comments table through a run *)

Lemma max_rowid_app {A} (key : A -> Z) (a b : list A) :
  max_rowid key (a ++ b) = Z.max (max_rowid key a) (max_rowid key b).
Proof.
  unfold max_rowid. induction a as [|x a IH]; cbn [app fold_right].
  - fold (max_rowid key b). pose proof (max_rowid_ge key b). lia.
  - rewrite IH. lia.
Qed.

Lemma max_rowid_In {A} (key : A -> Z) (l : list A) (r : A) :
  In r l -> key r <= max_rowid key l.
Proof.
  unfold max_rowid. induction l as [|x l IH]; intros []; cbn [fold_right].
  - subst. lia.
  - specialize (IH H). lia.
Qed.

Lemma Zseq_snoc start n : Zseq start (S n) = Zseq start n ++ [start + Z.of_nat n].
Proof. unfold Zseq. rewrite seq_S, map_app. reflexivity. Qed.

Lemma Zseq_cons start n : Zseq start (S n) = start :: Zseq (start + 1) n.
Proof.
  unfold Zseq. cbn [seq map]. rewrite <- seq_shift, map_map. f_equal.
  - lia.
  - apply map_ext. intros k. lia.
Qed.

Lemma Zseq_app start n m :
  Zseq start (n + m) = Zseq start n ++ Zseq (start + Z.of_nat n) m.
Proof.
  revert start. induction n as [|n IH]; intros start.
  - cbn [Nat.add]. unfold Zseq at 2. cbn [seq map app]. f_equal. cbn. lia.
  - cbn [Nat.add]. rewrite !Zseq_cons, IH. cbn [app]. do 3 f_equal. lia.
Qed.

Lemma Zseq_In start n x : In x (Zseq start n) -> start <= x < start + Z.of_nat n.
Proof.
  unfold Zseq. intros I. apply in_map_iff in I as (k & <- & I).
  apply in_seq in I. lia.
Qed.

Lemma Zseq_length start n : List.length (Zseq start n) = n.
Proof. unfold Zseq. now rewrite length_map, length_seq. Qed.

Section Table.

Variable h : Host.
Variable cfg : Config.
Variable tag : string.
Variable l : list Comment.

Lemma own_rows_high_water s : own_rows tag l s -> max_rowid id l <= high_water (file s).
Proof.
  intros (added & E & _). unfold high_water. rewrite E. cbn [rows].
  rewrite max_rowid_app. lia.
Qed.

Lemma own_rows_same_file s s' : file s' = file s -> own_rows tag l s -> own_rows tag l s'.
Proof. unfold own_rows. now intros ->. Qed.

Lemma insertStmt_run_rows a c ts s i s' :
  insertStmt_run a c tag ts s = Return i s' ->
  own_rows tag l s ->
  own_rows tag l s'
  /\ i = high_water (file s) + 1
  /\ high_water (file s') = i
  /\ comments_seq (file s') = i.
Proof.
  unfold insertStmt_run. intros E (added & Ec & F). rewrite Ec in E.
  injection E as <- <-.
  assert (Hw : next_rowid id (comments_seq (file s)) (l ++ added)
               = high_water (file s) + 1).
  { unfold next_rowid, high_water. now rewrite Ec. }
  unfold high_water at 2.
  cbn [file log set_file with_comments comments comments_seq rows].
  splits.
  - eexists. cbn [file log set_file with_comments comments].
    rewrite <- app_assoc. split; [reflexivity|].
    apply Forall_app. split; [exact F|]. constructor; [|constructor].
    cbn [test_session id]. split; [reflexivity|]. rewrite Hw.
    pose proof (own_rows_high_water s (ex_intro _ added (conj Ec F))). lia.
  - exact Hw.
  - rewrite max_rowid_app. unfold max_rowid at 2. cbn [fold_right id].
    rewrite Hw. unfold high_water. rewrite Ec. cbn [rows].
    pose proof (max_rowid_ge id (l ++ added)). lia.
  - reflexivity.
Qed.

Lemma insert_chunk_rows n ts nr w s nr' w' s' :
  insert_chunk h n tag ts nr w s = Return (nr', w') s' ->
  own_rows tag l s ->
  own_rows tag l s'
  /\ nr' = nr ++ Zseq (high_water (file s) + 1) n
  /\ high_water (file s') = high_water (file s) + Z.of_nat n
  /\ comments_seq (file s')
     = match n with
       | O => comments_seq (file s)
       | S _ => high_water (file s')
       end.
Proof.
  revert nr w s. induction n as [|n IH]; intros nr w s E O.
  - injection E as <- <- <-. splits; auto.
    + unfold Zseq. cbn. now rewrite app_nil_r.
    + cbn. lia.
  - cbn [insert_chunk] in E. bind_inv E. bind_inv E. bind_inv E.
    apply random_string_Return in E0 as (_ & F0 & _).
    apply random_string_Return in E1 as (_ & F1 & _).
    assert (O1 : own_rows tag l s1).
    { apply (own_rows_same_file s); [congruence | exact O]. }
    apply insertStmt_run_rows in E2 as (O2 & Ei & Hw & Sq); [|exact O1].
    apply IH in E as (O' & -> & Hw' & Sq'); [|exact O2].
    rewrite F1, F0 in Ei. splits.
    + exact O'.
    + unfold push. rewrite <- app_assoc. f_equal. rewrite Zseq_cons.
      cbn [app]. rewrite Hw, Ei. reflexivity.
    + rewrite Hw', Hw, Ei. lia.
    + destruct n as [|n]; [|exact Sq']. rewrite Sq', Hw', Sq, Hw. cbn. lia.
Qed.

Lemma write_loop_rows fuel ws ts nr w s nr' w' s' :
  write_loop h cfg fuel ws tag ts nr w s = Return (nr', w') s' ->
  own_rows tag l s ->
  exists n : nat,
    own_rows tag l s'
    /\ nr' = nr ++ Zseq (high_water (file s) + 1) n
    /\ w' = w + Z.of_nat n
    /\ high_water (file s') = high_water (file s) + Z.of_nat n
    /\ comments_seq (file s')
       = match n with
         | O => comments_seq (file s)
         | S _ => high_water (file s')
         end.
Proof.
  revert nr w s. induction fuel as [|fuel IH]; intros nr w s E O; [discriminate|].
  cbn [write_loop] in E. bind_inv E.
  apply Date_now_Return in E0 as (-> & ->).
  destruct (Qltb _ _).
  - bind_inv_as E [nr1 w1] E1.
    apply db_transaction_Return in E1. pose proof E1 as E2.
    apply insert_chunk_Return in E2 as (_ & _ & _ & -> & _).
    apply insert_chunk_rows in E1 as (O1 & -> & Hw1 & Sq1); [|exact O].
    apply IH in E as (n & O' & -> & -> & Hw' & Sq'); [|exact O1].
    cbn [file tick] in *.
    exists (chunkSize + n)%nat. splits.
    + exact O'.
    + rewrite <- app_assoc, Zseq_app. do 3 f_equal. rewrite Hw1. lia.
    + lia.
    + rewrite Hw', Hw1. lia.
    + unfold chunkSize at 1. cbn [Nat.add]. destruct n as [|n]; [|exact Sq'].
      rewrite Sq', Hw'. unfold chunkSize in Sq1. cbn in Sq1 |- *. rewrite Sq1. lia.
  - injection E as <- <- <-. exists 0%nat. splits; auto.
    + unfold Zseq. cbn. now rewrite app_nil_r.
    + lia.
    + cbn. lia.
Qed.

Lemma updateStmt_run_rows c i s s' :
  updateStmt_run c (Some i) s = Return tt s' ->
  own_rows tag l s -> max_rowid id l < i ->
  own_rows tag l s' /\ comments_seq (file s') = comments_seq (file s).
Proof.
  unfold updateStmt_run, bind. cbn [bind_parameter ret].
  intros E (added & Ec & F) Hi. rewrite Ec in E. injection E as <-.
  cbn [file log set_file with_comments comments comments_seq]. split; [|reflexivity].
  exists (map (fun r => if id r =? i then set_content c r else r) added).
  unfold own_rows. cbn [file log set_file with_comments comments].
  rewrite map_app. split.
  - do 2 f_equal. rewrite <- (map_id l) at 2. apply map_ext_in.
    intros r I. apply (max_rowid_In id) in I.
    destruct (Z.eqb_spec (id r) i); [lia | reflexivity].
  - apply Forall_map. eapply Forall_impl; [|exact F].
    intros r (T & B). now destruct (id r =? i).
Qed.

Lemma deleteStmt_run_rows i s s' :
  deleteStmt_run (Some i) s = Return tt s' ->
  own_rows tag l s -> max_rowid id l < i ->
  own_rows tag l s' /\ comments_seq (file s') = comments_seq (file s).
Proof.
  unfold deleteStmt_run, bind. cbn [bind_parameter ret].
  intros E (added & Ec & F) Hi. rewrite Ec in E. injection E as <-.
  cbn [file log set_file with_comments comments comments_seq]. split; [|reflexivity].
  exists (filter (fun r => negb (id r =? i)) added).
  cbn [file log set_file with_comments comments].
  rewrite filter_app. split.
  - do 2 f_equal. apply forallb_filter_id, forallb_forall.
    intros r I. apply (max_rowid_In id) in I.
    destruct (Z.eqb_spec (id r) i); [lia | reflexivity].
  - apply Forall_forall. intros r I. apply filter_In in I as (I & _).
    revert r I. now apply Forall_forall.
Qed.

Lemma update_loop_rows fuel us nr n d s x s' :
  update_loop h cfg fuel us nr n d s = Return x s' ->
  own_rows tag l s -> (forall i, In i nr -> max_rowid id l < i) ->
  own_rows tag l s' /\ comments_seq (file s') = comments_seq (file s).
Proof.
  revert n d s. induction fuel as [|fuel IH]; intros n d s E O A; [discriminate|].
  cbn [update_loop] in E. destruct (Qltb d (maxDuration cfg)).
  - bind_inv E. bind_inv E. bind_inv E. bind_inv E.
    apply pick_Return in E0 as (-> & I).
    apply random_string_Return in E1 as (_ & F1 & _).
    pose proof E2 as E2'.
    apply updateStmt_run_Return in E2' as (i & -> & _).
    destruct a1.
    apply updateStmt_run_rows in E2 as (O2 & S2).
    + apply Date_now_Return in E3 as (-> & ->).
      apply IH in E as (O' & S'); auto.
      split; [exact O'|]. rewrite S'. cbn [file tick]. rewrite S2, F1. reflexivity.
    + apply (own_rows_same_file s); [exact F1 | exact O].
    + apply A, I. reflexivity.
  - injection E as _ <-. auto.
Qed.

Lemma delete_loop_rows fuel ds nr n d s x s' :
  delete_loop h cfg fuel ds nr n d s = Return x s' ->
  own_rows tag l s -> (forall i, In i nr -> max_rowid id l < i) ->
  own_rows tag l s' /\ comments_seq (file s') = comments_seq (file s).
Proof.
  revert nr n d s. induction fuel as [|fuel IH]; intros nr n d s E O A; [discriminate|].
  cbn [delete_loop] in E. destruct (_ && _).
  - destruct (pop nr) as [i nr1] eqn:P. bind_inv E. bind_inv E.
    pose proof E0 as E0'.
    apply deleteStmt_run_Return in E0' as (j & -> & _).
    apply pop_Some in P as ->. destruct a.
    apply deleteStmt_run_rows in E0 as (O2 & S2); auto.
    + apply Date_now_Return in E1 as (-> & ->).
      apply IH in E as (O' & S'); auto.
      * split; [exact O'|]. rewrite S'. exact S2.
      * intros i I. apply A, in_or_app. now left.
    + apply A, in_or_app. right. now left.
  - injection E as _ <-. auto.
Qed.

Lemma delete_session_rows s s' :
  delete_session tag s = Return tt s' ->
  own_rows tag l s ->
  comments (file s') = Some (other_sessions tag l)
  /\ comments_seq (file s') = comments_seq (file s).
Proof.
  intros E (added & Ec & F).
  unfold delete_session in E. bind_inv E. apply db_prepare_Return in E0 as ->.
  rewrite Ec in E. injection E as <-.
  cbn [file log set_file with_comments comments comments_seq].
  split; [|reflexivity].
  rewrite filter_app. unfold other_sessions.
  assert (filter (fun r => negb (String.eqb (test_session r) tag)) added = []) as ->.
  { clear - F. induction F as [|r added (T & _) _ IH]; [reflexivity|].
    cbn [filter]. rewrite T, String.eqb_refl. exact IH. }
  now rewrite app_nil_r.
Qed.

End Table.

(** ** What a run does to the comments table *)

Lemma runTest_rows h cfg fuel s r s' :
  runTest h cfg fuel s = Return r s' ->
  exists l,
    comments (file s) = Some l
    /\ comments (file s')
       = Some (other_sessions (session_tag (clock h (ticks s))) l)
    /\ comments_seq (file s')
       = (if writes r =? 0 then comments_seq (file s)
          else high_water (file s) + writes r).
Proof.
  intros E.
  apply runTest_phases in E
    as (nr & w & s4 & rn & rd & s7 & un & ud & s9 & dn & dd & rest & s11 & s12
        & Ew & Er & Eu & Ed & Ec & -> & _ & T & W & _).
  destruct (comments (file s)) as [l|] eqn:El; [clear T | congruence].
  exists l. split; [reflexivity|].
  set (tag := session_tag (clock h (ticks s))) in *.
  assert (O : own_rows tag l (tick (tick (tick s)))).
  { exists []. cbn [file tick]. rewrite El, app_nil_r. split; auto. }
  apply (write_loop_rows h cfg tag l) in Ew as (n & O4 & En & -> & Hw & Sq);
    [|exact O].
  cbn [app file tick] in *.
  assert (A : forall i, In i nr -> max_rowid id l < i).
  { intros i I. rewrite En in I. apply Zseq_In in I.
    pose proof (own_rows_high_water tag l _ O). cbn [file tick] in *. lia. }
  apply read_loop_Return in Er as (_ & _ & _ & _ & _ & Fr).
  apply (update_loop_rows h cfg tag l) in Eu as (O9 & S9); auto;
    [| apply (own_rows_same_file tag l s4); auto].
  apply (delete_loop_rows h cfg tag l) in Ed as (O11 & S11); auto.
  apply (delete_session_rows tag l) in Ec as (C12 & S12); auto.
  cbn [file tick] in *. split; [exact C12|].
  rewrite S12, S11, S9, Fr. cbn [file tick]. rewrite Sq, W.
  destruct n as [|n]; [reflexivity|].
  destruct (Z.eqb_spec (0 + Z.of_nat (S n)) 0); [lia|]. rewrite Hw. lia.
Qed.





(** ** Counters and rates of a run with a positive budget *)

Section Entered.

Variable h : Host.
Variable cfg : Config.

Lemma read_loop_entered fuel rs nr s n d s' :
  Qltb 0 (maxDuration cfg) = true ->
  read_loop h cfg fuel rs nr 0 0%Q s = Return (n, d) s' ->
  1 <= n /\ nr <> [] /\ Qltb d (maxDuration cfg) = false.
Proof.
  intros P E. destruct fuel as [|fuel]; [discriminate|].
  cbn [read_loop] in E. rewrite P in E.
  bind_inv E. bind_inv E. bind_inv E.
  apply pick_Return in E0 as (-> & I).
  apply selectStmt_get_Return in E1 as (i & -> & ->).
  apply read_loop_Return in E as (used & _ & -> & _ & C & _).
  splits; [lia | | exact C].
  specialize (I i eq_refl). now destruct nr.
Qed.

Lemma update_loop_entered fuel us nr s n d s' :
  Qltb 0 (maxDuration cfg) = true ->
  update_loop h cfg fuel us nr 0 0%Q s = Return (n, d) s' ->
  1 <= n /\ Qltb d (maxDuration cfg) = false.
Proof.
  intros P E. destruct fuel as [|fuel]; [discriminate|].
  cbn [update_loop] in E. rewrite P in E.
  bind_inv E. bind_inv E. bind_inv E. bind_inv E.
  apply update_loop_Return in E as (used & _ & -> & _ & C).
  split; [lia | exact C].
Qed.

Lemma delete_loop_entered fuel ds nr s n d rest s' :
  Qltb 0 (maxDuration cfg) = true -> nr <> [] ->
  delete_loop h cfg fuel ds nr 0 0%Q s = Return (n, d, rest) s' ->
  1 <= n.
Proof.
  intros P Ne E. destruct fuel as [|fuel]; [discriminate|].
  cbn [delete_loop] in E. rewrite P in E.
  assert ((0 <? Z.of_nat (List.length nr)) = true) as L.
  { apply Z.ltb_lt. destruct nr; [congruence | cbn; lia]. }
  rewrite L in E. cbn [andb] in E.
  destruct (pop nr) as [i nr1]. bind_inv E. bind_inv E.
  apply delete_loop_Return in E as (deleted & _ & _ & -> & _). lia.
Qed.

(** A count divided by a duration that reached a positive budget. *)
Lemma per_second_finite n d :
  0 <= n -> (0 < maxDuration cfg)%Q -> Qltb d (maxDuration cfg) = false ->
  exists k : Z,
    per_second n d = Num (inject_Z k)
    /\ 0 <= k
    /\ (inject_Z k <= inject_Z n / maxDuration cfg + (1 # 2))%Q.
Proof.
  intros N P C. apply Qltb_ge in C.
  assert (D : (0 < d)%Q) by (eapply Qlt_le_trans; eauto).
  assert (Z0 : Qeq_bool d 0 = false).
  { destruct (Qeq_bool d 0) eqn:E; auto. apply Qeq_bool_iff in E.
    rewrite E in D. now apply Qlt_irrefl in D. }
  assert (N0 : (0 <= inject_Z n)%Q).
  { change 0%Q with (inject_Z 0). now rewrite <- Zle_Qle. }
  exists (Qround_half_up (inject_Z n / d)).
  unfold per_second, div. rewrite Z0. splits; [reflexivity | |].
  - change 0 with (Qround_half_up 0). apply Qround_half_up_le.
    apply Qle_shift_div_l; auto. now rewrite Qmult_0_l.
  - eapply Qle_trans; [apply Qround_half_up_nearest|].
    apply Qplus_le_l. apply Qle_shift_div_r; auto.
    assert (Zp : (0 <= inject_Z n / maxDuration cfg)%Q).
    { apply Qle_shift_div_l; auto. now rewrite Qmult_0_l. }
    rewrite (Qmult_comm _ d).
    eapply Qle_trans; [| apply Qmult_le_compat_r; [exact C | exact Zp]].
    rewrite Qmult_div_r; [apply Qle_refl|].
    intros E. rewrite E in P. now apply Qlt_irrefl in P.
Qed.

End Entered.



(** X4: the counters count what was executed. A run that returns has
    executed [totalOperations] statements on [comments] and then the
    cleanup, nothing else; and it cannot have deleted more than it wrote. *)
Theorem counters_count_statements (h : Host) (cfg : Config) (fuel : nat)
    (s : State) (r : WorkloadResult) (s' : State) :
  runTest h cfg fuel s = Return r s' ->
  (exists executed,
      trace s' = DeleteSession (session_tag (clock h (ticks s))) :: executed
                 ++ trace s
      /\ Z.of_nat (List.length executed) = totalOperations r
      /\ Forall (fun e => match e with
                          | InsertComment _ | SelectComment _
                          | UpdateComment _ | DeleteComment _ => True
                          | _ => False
                          end) executed)
  /\ 0 <= deletes r <= writes r
  /\ 0 <= reads r /\ 0 <= updates r.
Proof.
  intros E.
  apply runTest_Return in E
    as (nr & rs & us & ds & rest & k & T & En & _ & _ & _ & _ & W & R & U & D
        & Tot & _).
  split.
  - exists (map DeleteComment ds ++ map UpdateComment us
            ++ map SelectComment rs ++ map InsertComment (rev nr)).
    splits.
    + rewrite T. cbn [app]. now rewrite <- !app_assoc.
    + rewrite !length_app, !length_map, length_rev, Tot, W, R, U, D. lia.
    + repeat (apply Forall_app; split); apply Forall_forall; intros e I;
        apply in_map_iff in I as (x & <- & _); exact I.
  - rewrite W, R, U, D, En, length_app. lia.
Qed.

Lemma counters_count_statements_witness :
  exists executed,
    trace state_after_first_run = DeleteSession "test_0" :: executed ++ []
    /\ Z.of_nat (List.length executed) = 209.
Proof.
  destruct (counters_count_statements host_1s source_config 50 ready_state
              result_of_first_run state_after_first_run eq_refl)
    as ((executed & T & L & _) & _).
  exists executed. split; [exact T | exact L].
Defined.

(** ** The cache, from one call to the next *)

Lemma latest_In l row : latest l = Some row -> In row l.
Proof.
  revert row. induction l as [|r l IH]; intros row E; [discriminate|].
  cbn [latest] in E. destruct (latest l) as [r'|].
  - destruct (newer r' r); injection E as <-; [right; now apply IH | now left].
  - injection E as <-. now left.
Qed.

Lemma latest_max l row :
  latest l = Some row ->
  forall r, In r l -> cache_timestamp r <= cache_timestamp row.
Proof.
  revert row. induction l as [|r0 l IH]; intros row E r I; [destruct I|].
  cbn [latest] in E. destruct (latest l) as [r'|] eqn:El.
  - specialize (IH r' eq_refl).
    destruct (newer r' r0) eqn:N; injection E as <-.
    + destruct I as [<-|I]; [|now apply IH].
      unfold newer in N. apply orb_true_iff in N as [N|N].
      * apply Z.ltb_lt in N. lia.
      * apply andb_true_iff in N as (N & _). apply Z.eqb_eq in N. lia.
    + destruct I as [<-|I]; [lia|]. apply IH in I.
      unfold newer in N. apply orb_false_iff in N as (N & _).
      apply Z.ltb_ge in N. lia.
  - destruct l; [|cbn in El; destruct (latest l); [destruct (newer _ _)|]; discriminate].
    injection E as <-. destruct I as [<-|[]]. lia.
Qed.

(** X5: the row the SELECT of line 67 finds is a row of the table whose
    timestamp no other row exceeds, and it finds none only in an empty
    table. *)
Theorem cached_row_is_most_recent (s : State) :
  (cached_row s = None <-> rows (test_results_cache (file s)) = [])
  /\ (forall row,
         cached_row s = Some row ->
         In row (rows (test_results_cache (file s)))
         /\ forall r, In r (rows (test_results_cache (file s))) ->
                      cache_timestamp r <= cache_timestamp row).
Proof.
  unfold cached_row. split.
  - split.
    + destruct (rows (test_results_cache (file s))) as [|r l]; [reflexivity|].
      cbn [latest]. destruct (latest l); [destruct (newer _ _)|]; discriminate.
    + now intros ->.
  - intros row E. split; [now apply latest_In | now apply latest_max].
Qed.

(** X6: what a call stores is what the next call serves. After a call that
    ran the workload and returned [r], the cached row is the one just
    written, with [JSON.stringify(r)] and the second of the last clock
    reading; a following call that finds it fresh returns
    [JSON.parse(JSON.stringify(r))] without running the workload. *)
Theorem stored_result_is_served (h : Host) (cfg : Config) (fuel : nat)
    (s : State) (r : WorkloadResult) (s' : State) :
  getCachedTest h cfg fuel s = Return (Object r) s' ->
  exists row,
    cached_row s' = Some row
    /\ result row = JSON_stringify h r
    /\ cache_timestamp row = Math_floor (seconds (clock h (pred (ticks s'))))
    /\ forall fuel',
         (age h s' row < maxCacheSeconds cfg)%Q ->
         getCachedTest h cfg fuel' s'
         = match JSON_parse h (JSON_stringify h r) with
           | Some v => Return (Parsed v) (tick (after_select s'))
           | None => Throw SyntaxError (tick (after_select s'))
           end.
Proof.
  intros E. apply getCachedTest_Object in E as (s0 & s1 & _ & _ & ->).
  exists (stored_row h r s1). splits; try reflexivity.
  intros fuel' A. apply Qltb_lt in A.
  rewrite getCachedTest_eq.
  change (cached_row (store_result h r s1)) with (Some (stored_row h r s1)).
  unfold is_fresh. unfold age in A. rewrite A. reflexivity.
Qed.

Lemma stored_result_is_served_witness :
  exists row,
    cached_row state_after_first_call = Some row
    /\ result row = "209"
    /\ getCachedTest host_1s source_config 0 state_after_first_call
       = Return (Parsed (JString "209")) (tick (after_select state_after_first_call)).
Proof.
  destruct (stored_result_is_served host_1s source_config 50 initial_state
              result_of_first_call state_after_first_call eq_refl)
    as (row & C & R & _ & Next).
  exists row. splits; [exact C | exact R |].
  apply (Next 0%nat).
  injection C as <-. reflexivity.
Defined.



(** ** The specs reporter: edges *)

(** X8: on a host whose CPU list is empty the reporter does not fail: it
    counts 0 vCPUs, names the model ['Unknown'], and the CPU usage is the
    load average divided by zero, [NaN%] for a load of zero and [Infinity%]
    for a positive one, never a finite percentage. The model is ['Unknown']
    too when the first CPU has an empty model string. *)
Theorem specs_without_cpus (os : OS) :
  (os_cpus os = [] ->
   (0 <= os_loadavg os)%Q ->
   vCPUs (getServerSpecs os) = 0
   /\ CPU_model (getServerSpecs os) = "Unknown"
   /\ CPU_usage (getServerSpecs os)
      = Quantity (if Qeq_bool (os_loadavg os) 0 then NaN else Infinity) "%")
  /\ (forall rest, os_cpus os = "" :: rest ->
                   CPU_model (getServerSpecs os) = "Unknown")
  /\ (forall m rest, os_cpus os = m :: rest -> m <> "" ->
                     CPU_model (getServerSpecs os) = m).
Proof.
  splits.
  - intros E L. unfold getServerSpecs. rewrite E.
    cbn [vCPUs CPU_model CPU_usage List.length nth_error or_Unknown Z.of_nat].
    splits; try reflexivity.
    f_equal. unfold div.
    change (Qeq_bool (inject_Z 0) 0) with true. cbn iota.
    destruct (Qeq_bool (os_loadavg os) 0) eqn:Z0; [reflexivity|].
    assert (Qneg (os_loadavg os) = false) as ->.
    { unfold Qneg. apply Z.ltb_ge. unfold Qle in L. cbn in L. lia. }
    reflexivity.
  - intros rest E. unfold getServerSpecs. rewrite E. reflexivity.
  - intros m rest E N. unfold getServerSpecs. rewrite E.
    cbn [CPU_model nth_error or_Unknown].
    destruct (String.eqb_spec m ""); [congruence | reflexivity].
Qed.

Lemma specs_without_cpus_witness :
  vCPUs (getServerSpecs headless_os) = 0
  /\ CPU_model (getServerSpecs headless_os) = "Unknown"
  /\ CPU_usage (getServerSpecs headless_os) = Quantity Infinity "%".
Proof.
  apply (proj1 (specs_without_cpus headless_os)).
  - reflexivity.
  - discriminate.
Defined.

(** X9: the total memory is shown in whole gigabytes, the integer nearest
    to [totalmem / 2^30] (halves up): a host with less than half a gigabyte
    is reported as [0GB]. *)
Theorem total_ram_in_whole_gigabytes (os : OS) :
  (exists n : Z,
      Total_RAM (getServerSpecs os) = Quantity (Num (inject_Z n)) "GB"
      /\ (inject_Z (os_totalmem os) / inject_Z (1024 * 1024 * 1024) - (1 # 2)
          < inject_Z n)%Q
      /\ (inject_Z n
          <= inject_Z (os_totalmem os) / inject_Z (1024 * 1024 * 1024) + (1 # 2))%Q)
  /\ (0 <= os_totalmem os < 536870912 ->
      Total_RAM (getServerSpecs os) = Quantity (Num (inject_Z 0)) "GB").
Proof.
  assert (E : Total_RAM (getServerSpecs os)
              = Quantity
                  (Num (inject_Z
                          (Qround_half_up
                             (inject_Z (os_totalmem os)
                              / inject_Z (1024 * 1024 * 1024))))) "GB")
    by reflexivity.
  split.
  - eexists. split; [exact E|]. apply Qround_half_up_nearest.
  - intros (L & U). rewrite E. do 3 f_equal.
    change (1024 * 1024 * 1024) with 1073741824.
    unfold Qround_half_up, Qfloor, Qdiv, Qmult, Qplus, Qinv, inject_Z.
    cbn [Qnum Qden Pos.mul]. apply Z.div_small. lia.
Qed.

Lemma total_ram_in_whole_gigabytes_witness :
  Total_RAM (getServerSpecs headless_os) = Quantity (Num (inject_Z 0)) "GB".
Proof.
  apply (proj2 (total_ram_in_whole_gigabytes headless_os)).
  cbn [os_totalmem headless_os]. lia.
Defined.

(** ** [initDatabase]: the schema it leaves *)

Lemma add_index_NoDup name ix : NoDup ix -> NoDup (add_index name ix).
Proof.
  intros N. unfold add_index.
  destruct (existsb (String.eqb name) ix) eqn:E; [exact N|].
  apply NoDup_app; splits; auto.
  - repeat constructor. intros [].
  - intros x I [->|[]].
    assert (existsb (String.eqb x) ix = true) as E'.
    { apply existsb_exists. exists x. split; [exact I | apply String.eqb_refl]. }
    congruence.
Qed.

Lemma add_index_In_self name ix : In name (add_index name ix).
Proof.
  unfold add_index. destruct (existsb (String.eqb name) ix) eqn:E.
  - apply existsb_exists in E as (x & I & E). apply String.eqb_eq in E. now subst.
  - apply in_or_app. right. now left.
Qed.


(** ** How long a run takes *)

Section Elapsed.

Variable h : Host.
Variable cfg : Config.

Lemma write_loop_last_reading fuel ws tag ts nr w s x s' :
  write_loop h cfg fuel ws tag ts nr w s = Return x s' ->
  (ticks s < ticks s')%nat
  /\ Qltb (seconds (clock h (pred (ticks s'))) - ws) (maxDuration cfg) = false.
Proof.
  revert nr w s. induction fuel as [|fuel IH]; intros nr w s E; [discriminate|].
  cbn [write_loop] in E. bind_inv E.
  apply Date_now_Return in E0 as (-> & ->).
  destruct (Qltb (seconds (clock h (ticks s)) - ws) (maxDuration cfg)) eqn:C.
  - bind_inv_as E [nr1 w1] E1.
    apply db_transaction_Return, insert_chunk_Return in E1
      as (_ & _ & _ & _ & _ & K & _).
    apply IH in E as (L & X). cbn [ticks tick] in K. split; [lia | exact X].
  - injection E as _ <-. cbn [ticks tick pred]. split; [lia | exact C].
Qed.

Lemma read_loop_last_reading fuel rs nr n d s n' d' s' :
  read_loop h cfg fuel rs nr n d s = Return (n', d') s' ->
  (Qltb d (maxDuration cfg) = false -> s' = s /\ d' = d)
  /\ (Qltb d (maxDuration cfg) = true ->
      (ticks s < ticks s')%nat
      /\ d' = (seconds (clock h (pred (ticks s'))) - rs)%Q).
Proof.
  revert n d s. induction fuel as [|fuel IH]; intros n d s E; [discriminate|].
  cbn [read_loop] in E. destruct (Qltb d (maxDuration cfg)) eqn:C.
  - split; [discriminate|]. intros _.
    bind_inv E. bind_inv E. bind_inv E.
    apply pick_Return in E0 as (-> & _).
    apply selectStmt_get_Return in E1 as (i & _ & ->).
    apply Date_now_Return in E2 as (-> & ->).
    apply IH in E as (F & T). cbn [ticks tick log draw] in *.
    destruct (Qltb (seconds (clock h (ticks s)) - rs) (maxDuration cfg)).
    + destruct (T eq_refl) as (L & ->). split; [lia | reflexivity].
    + destruct (F eq_refl) as (-> & ->). cbn [ticks tick pred log draw].
      split; [lia | reflexivity].
  - injection E as _ <- <-. split; [auto | discriminate].
Qed.

Lemma update_loop_last_reading fuel us nr n d s n' d' s' :
  update_loop h cfg fuel us nr n d s = Return (n', d') s' ->
  (Qltb d (maxDuration cfg) = false -> s' = s /\ d' = d)
  /\ (Qltb d (maxDuration cfg) = true ->
      (ticks s < ticks s')%nat
      /\ d' = (seconds (clock h (pred (ticks s'))) - us)%Q).
Proof.
  revert n d s. induction fuel as [|fuel IH]; intros n d s E; [discriminate|].
  cbn [update_loop] in E. destruct (Qltb d (maxDuration cfg)) eqn:C.
  - split; [discriminate|]. intros _.
    bind_inv E. bind_inv E. bind_inv E. bind_inv E.
    apply pick_Return in E0 as (-> & _).
    apply random_string_Return in E1 as (_ & _ & K1).
    apply updateStmt_run_Return in E2 as (i & _ & _ & K2).
    apply Date_now_Return in E3 as (-> & ->).
    apply IH in E as (F & T). cbn [ticks tick draw] in *.
    rewrite K2, K1 in F, T.
    destruct (Qltb (seconds (clock h (ticks s)) - us) (maxDuration cfg)).
    + destruct (T eq_refl) as (L & ->). split; [lia | reflexivity].
    + destruct (F eq_refl) as (-> & ->). cbn [ticks tick pred].
      rewrite K2, K1. split; [lia | reflexivity].
  - injection E as _ <- <-. split; [auto | discriminate].
Qed.

Lemma delete_loop_ticks fuel ds nr n d s x s' :
  delete_loop h cfg fuel ds nr n d s = Return x s' -> (ticks s <= ticks s')%nat.
Proof.
  revert nr n d s. induction fuel as [|fuel IH]; intros nr n d s E; [discriminate|].
  cbn [delete_loop] in E. destruct (_ && _).
  - destruct (pop nr) as [i nr1]. bind_inv E. bind_inv E.
    apply deleteStmt_run_Return in E0 as (j & _ & _ & K).
    apply Date_now_Return in E1 as (-> & ->).
    apply IH in E. cbn [ticks tick] in E. lia.
  - injection E as _ <-. lia.
Qed.

End Elapsed.



(** * The sqlite3 variant *)

Section Variant.

Import Sqlite3Variant.

Variable h : Host.
Variable e : Engine.
Variable tag : string.
Variable l : list Comment.

Lemma random_tail_Return s x s' :
  random_tail h s = Return x s' ->
  file s' = file s /\ ticks s' = ticks s /\ db s' = db s.
Proof. unfold random_tail, bind, Math_random, ret. now intros [= _ <-]. Qed.

Lemma make_values_Return n values s vs s' :
  make_values h n values s = Return vs s' ->
  List.length vs = (List.length values + n)%nat
  /\ file s' = file s /\ ticks s' = ticks s /\ db s' = db s.
Proof.
  revert values s. induction n as [|n IH]; intros values s E;
    cbn [make_values] in E.
  - injection E as <- <-. splits; auto.
  - bind_inv_as E author E1. bind_inv_as E content E2.
    apply random_tail_Return in E1 as (F1 & T1 & D1).
    apply random_tail_Return in E2 as (F2 & T2 & D2).
    apply IH in E as (L & F & T & D). unfold push in L.
    rewrite length_app in L. cbn [List.length] in L.
    splits; [lia | congruence ..].
Qed.

Lemma db_run_control_Return s x s' : db_run_control s = Return x s' -> s' = s.
Proof. unfold db_run_control. destruct (db s); [|discriminate]. now intros [= _ <-]. Qed.

Lemma try_stmt_run_Return n a c ts s res s' added :
  try_stmt_run e n a c tag ts s = Return res s' ->
  grown tag l s added ->
  ticks s' = ticks s /\ db s' = db s
  /\ match res with
     | Some _ => exists row, grown tag l s' (added ++ [row])
     | None => s' = s
     end.
Proof.
  unfold try_stmt_run. intros E (Ec & F).
  destruct (rejects e n).
  { injection E as <- <-. auto. }
  unfold insertStmt_run in E. rewrite Ec in E. injection E as <- <-.
  cbn [ticks db log set_file]. splits; auto.
  eexists. unfold grown. cbn [file log set_file with_comments comments].
  rewrite <- app_assoc. split; [reflexivity|].
  apply Forall_app. split; [exact F|]. now repeat constructor.
Qed.

Lemma insert_values_Return values ts nr w f s nr' w' f' s' added :
  insert_values e values tag ts nr w f s = Return (nr', w', f') s' ->
  grown tag l s added ->
  exists added',
    grown tag l s' added'
    /\ Z.of_nat (List.length added') = Z.of_nat (List.length added) + (w' - w)
    /\ Z.of_nat (List.length nr') = Z.of_nat (List.length nr) + (w' - w)
    /\ (w' - w) + (f' - f) = Z.of_nat (List.length values)
    /\ w <= w' /\ f <= f'
    /\ ticks s' = ticks s /\ db s' = db s.
Proof.
  revert nr w f s added.
  induction values as [|value values IH]; intros nr w f s added E G;
    cbn [insert_values] in E.
  - injection E as <- <- <- <-. exists added. cbn [List.length]. splits; auto; lia.
  - bind_inv_as E res E1.
    destruct (try_stmt_run_Return _ _ _ _ _ _ _ _ E1 G) as (T1 & D1 & R).
    destruct res as [lastID|].
    + destruct R as (row & G1).
      destruct (IH _ _ _ _ _ E G1) as (added' & G' & La & Ln & C & Lw & Lf & T & D).
      exists added'. unfold push in Ln.
      rewrite length_app in La, Ln. cbn [List.length] in *.
      splits; auto; try lia; congruence.
    + subst s0.
      destruct (IH _ _ _ _ _ E G) as (added' & G' & La & Ln & C & Lw & Lf & T & D).
      exists added'. cbn [List.length]. splits; auto; lia.
Qed.

Lemma variant_write_loop_Return fuel st ts nr w f s nr' w' f' s' added :
  write_loop h e fuel st tag ts nr w f s = Return (nr', w', f') s' ->
  grown tag l s added ->
  exists added' k,
    grown tag l s' added'
    /\ Z.of_nat (List.length added') = Z.of_nat (List.length added) + (w' - w)
    /\ Z.of_nat (List.length nr') = Z.of_nat (List.length nr) + (w' - w)
    /\ (w' - w) + (f' - f) = 10 * k
    /\ w <= w' /\ f <= f'
    /\ db s' = db s.
Proof.
  revert nr w f s added.
  induction fuel as [|fuel IH]; intros nr w f s added E G; [discriminate|].
  cbn [write_loop] in E.
  bind_inv_as E now E1. apply Date_now_Return in E1 as (_ & ->).
  destruct (now - st <? maxDuration).
  2:{ injection E as <- <- <- <-. exists added, 0. splits; auto; lia. }
  bind_inv_as E values E2.
  apply make_values_Return in E2 as (Lv & F2 & T2 & D2).
  bind_inv_as E ? E3. apply db_run_control_Return in E3 as ->.
  bind_inv_as E [[nr1 w1] f1] E4.
  assert (G0 : grown tag l s0 added).
  { destruct G as (Ec & Fa). split; [|exact Fa]. rewrite F2. exact Ec. }
  destruct (insert_values_Return _ _ _ _ _ _ _ _ _ _ _ E4 G0)
    as (added1 & G1 & La & Ln & C & Lw & Lf & T & D).
  bind_inv_as E ? E5. apply db_run_control_Return in E5 as ->.
  bind_inv_as E now2 E6. apply Date_now_Return in E6 as (_ & ->).
  cbn [List.length Nat.add] in Lv. rewrite Lv in C.
  change (Z.of_nat chunkSize) with 10 in C.
  destruct (maxDuration <=? now2 - st).
  - injection E as <- <- <- <-. exists added1, 1.
    splits; auto; try lia. cbn [db tick] in *. congruence.
  - destruct (IH _ _ _ _ _ E G1) as (added' & k & G' & La' & Ln' & C' & Lw' & Lf' & D').
    exists added', (k + 1). splits; auto; try lia.
    cbn [db tick] in *. congruence.
Qed.

Lemma read_sample_Return ids s x s' :
  read_sample ids s = Return x s' ->
  file s' = file s /\ ticks s' = ticks s /\ db s' = db s.
Proof.
  revert s. induction ids as [|i ids IH]; intros s E; cbn [read_sample] in E.
  - now injection E as _ <-.
  - bind_inv_as E ? E1. apply selectStmt_get_Return in E1 as (j & _ & ->).
    apply IH in E as (F & T & D). cbn [file ticks db log] in *. auto.
Qed.

Lemma draw_n_frame n s :
  file (draw_n n s) = file s /\ ticks (draw_n n s) = ticks s
  /\ db (draw_n n s) = db s.
Proof.
  unfold draw_n. induction n as [|n IH]; cbn [Nat.iter]; [auto|].
  cbn [file ticks db draw]. exact IH.
Qed.

Lemma filter_kept_grown cutoff added :
  Forall (fun r => test_session r = tag) added ->
  filter (kept tag cutoff) (l ++ added) = filter (kept tag cutoff) l.
Proof.
  intros F. rewrite filter_app.
  assert (N : filter (kept tag cutoff) added = []).
  { induction F as [|r added Hr _ IH]; [reflexivity|].
    cbn [filter]. unfold kept at 1. rewrite Hr, String.eqb_refl.
    cbn [orb negb]. exact IH. }
  rewrite N. apply app_nil_r.
Qed.

Lemma count_comments_Return s n s' :
  count_comments s = Return n s' ->
  s' = s /\ exists rows, comments (file s) = Some rows
                         /\ n = Z.of_nat (List.length rows).
Proof.
  unfold count_comments. destruct (db s); [|discriminate].
  destruct (comments (file s)) as [rows|]; [|discriminate].
  intros [= <- <-]. split; [reflexivity|]. now exists rows.
Qed.

Lemma delete_session_or_old_Return cutoff s x s' :
  delete_session_or_old tag cutoff s = Return x s' ->
  ticks s' = ticks s
  /\ exists rows, comments (file s) = Some rows
                  /\ comments (file s') = Some (filter (kept tag cutoff) rows).
Proof.
  unfold delete_session_or_old. destruct (db s); [|discriminate].
  destruct (comments (file s)) as [rows|] eqn:Ec; [|discriminate].
  intros [= _ <-]. split; [reflexivity|]. now exists rows.
Qed.

(** What a run that returns has done, phase by phase. *)
Lemma variant_runTest_Return fuel s r s' :
  Sqlite3Variant.runTest h e fuel s = Return r s' ->
  tag = session_tag (clock h (S (ticks s))) ->
  comments (file s) = Some l ->
  exists (failures k : Z) (sorted : list Z) (readTime : Q),
    0 <= writes r /\ 0 <= failures
    /\ writes r + failures = 10 * k
    /\ reads r = Z.min 10000 (writes r)
    /\ total r = Z.of_nat (List.length l) + writes r
    /\ failureRate r
       = div (Math_round
                (mul (div (Num (inject_Z failures)) (Num (inject_Z (writes r))))
                   (Num 10000)))
           (Num 100)
    /\ readsPerSecond r
       = Math_round
           (mul (div (Num (inject_Z (reads r))) (Num readTime))
              (div (Num (inject_Z (Z.of_nat (List.length sorted))))
                 (Num (inject_Z (reads r)))))
    /\ (2 <= ticks s')%nat
    /\ comments (file s')
       = Some (filter
                 (kept tag (Math_floor (seconds (clock h (ticks s' - 2))) - 600))
                 l).
Proof.
  unfold Sqlite3Variant.runTest. intros E Ht Ec.
  bind_inv_as E startTime E1. apply Date_now_Return in E1 as (-> & ->).
  bind_inv_as E now1 E2. apply Date_now_Return in E2 as (-> & ->).
  bind_inv_as E now2 E3. apply Date_now_Return in E3 as (-> & ->).
  bind_inv_as E ? E4. apply db_prepare_Return in E4 as ->.
  bind_inv_as E [[nr w] f] E5.
  cbn [ticks tick] in E5. rewrite <- Ht in E5.
  assert (G : grown tag l (tick (tick (tick s))) []).
  { split; [|constructor]. cbn [file tick]. now rewrite app_nil_r. }
  destruct (variant_write_loop_Return _ _ _ _ _ _ _ _ _ _ _ _ E5 G)
    as (added & k & (Ea & Fa) & La & Ln & C & Lw & Lf & D).
  cbn [List.length] in La, Ln.
  bind_inv_as E now3 E6. apply Date_now_Return in E6 as (-> & ->).
  bind_inv_as E readStart E7. apply Date_now_Return in E7 as (-> & ->).
  bind_inv_as E sorted E8.
  unfold sort_randomly in E8.
  destruct (sort_random e _ nr) as [sorted' drawn] in E8.
  injection E8 as -> <-.
  bind_inv_as E ? E9. apply db_prepare_Return in E9 as ->.
  bind_inv_as E ? E10. apply read_sample_Return in E10 as (F10 & T10 & D10).
  destruct (draw_n_frame drawn (tick (tick s0))) as (Fd & Td & Dd).
  bind_inv_as E now4 E11. apply Date_now_Return in E11 as (-> & ->).
  bind_inv_as E tot E12.
  apply count_comments_Return in E12 as (-> & rows & Er & ->).
  bind_inv_as E size E13. injection E13 as <- <-.
  bind_inv_as E now5 E14. apply Date_now_Return in E14 as (-> & ->).
  bind_inv_as E ? E15. cbn [ticks tick] in E15. rewrite <- Ht in E15.
  apply delete_session_or_old_Return in E15 as (T15 & rows' & Er' & Ek).
  bind_inv_as E now6 E16. apply Date_now_Return in E16 as (-> & ->).
  injection E as <- <-.
  assert (Erows : rows = l ++ added).
  { cbn [file tick] in Er. rewrite F10, Fd in Er. cbn [file tick] in Er.
    congruence. }
  assert (Erows' : rows' = l ++ added).
  { cbn [file tick] in Er'. rewrite F10, Fd in Er'. cbn [file tick] in Er'.
    congruence. }
  subst rows rows'.
  exists f, k, sorted,
    (seconds (clock h (ticks s1) - clock h (S (ticks s0)))).
  cbn [writes reads total failureRate readsPerSecond ticks tick file].
  cbn [ticks tick] in T15.
  splits; try lia; try reflexivity.
  - rewrite length_app. lia.
  - rewrite Ek, T15.
    replace (S (S (ticks s1)) - 2)%nat with (ticks s1) by lia.
    f_equal. apply filter_kept_grown. exact Fa.
Qed.

(** ** The variant returns *)

Lemma make_values_total n values s :
  exists vs s',
    make_values h n values s = Return vs s'
    /\ file s' = file s /\ ticks s' = ticks s /\ db s' = db s.
Proof.
  revert values s. induction n as [|n IH]; intros values s; cbn [make_values].
  - exists values, s. auto.
  - unfold random_tail at 1. unfold Math_random, bind at 1 2, ret.
    unfold random_tail at 1. unfold Math_random, bind at 1 2, ret.
    destruct (IH (push values
                    (String.substring 7
                       (String.length (toString36 h (random h (draws s))) - 7)
                       (toString36 h (random h (draws s))),
                     String.substring 7
                       (String.length (toString36 h (random h (draws (draw s)))) - 7)
                       (toString36 h (random h (draws (draw s))))))
                (draw (draw s)))
      as (vs & s' & E & F & T & D).
    exists vs, s'. splits; auto.
Qed.

Lemma try_stmt_run_total n a c ts s :
  ready s ->
  exists res s',
    try_stmt_run e n a c tag ts s = Return res s'
    /\ ready s' /\ ticks s' = ticks s.
Proof.
  intros (D & T). unfold try_stmt_run.
  destruct (rejects e n).
  { exists None, s. splits; auto. split; auto. }
  unfold insertStmt_run. destruct (comments (file s)); [|congruence].
  eexists. eexists. split; [reflexivity|].
  cbn [ticks log set_file]. split; [|reflexivity].
  split; cbn [db file log set_file with_comments comments]; [exact D | discriminate].
Qed.

Lemma insert_values_total values ts nr w f s :
  ready s ->
  exists x s',
    insert_values e values tag ts nr w f s = Return x s'
    /\ ready s' /\ ticks s' = ticks s.
Proof.
  revert nr w f s.
  induction values as [|value values IH]; intros nr w f s R;
    cbn [insert_values].
  - eexists. exists s. auto.
  - destruct (try_stmt_run_total (w + f) (fst value) (snd value) ts s R)
      as (res & s1 & E1 & R1 & T1).
    rewrite (bind_eq _ _ _ _ _ E1).
    destruct res as [lastID|].
    + destruct (IH (push nr lastID) (w + 1) f s1 R1) as (x & s' & E & R' & T').
      exists x, s'. splits; auto. congruence.
    + destruct (IH nr w (f + 1) s1 R1) as (x & s' & E & R' & T').
      exists x, s'. splits; auto. congruence.
Qed.

Lemma variant_write_loop_total N st ts :
  maxDuration <= clock h N - st ->
  forall fuel nr w f s,
    (1 + (N - ticks s) <= fuel)%nat -> (ticks s <= N)%nat ->
    ready s ->
    exists x s',
      write_loop h e fuel st tag ts nr w f s = Return x s' /\ ready s'.
Proof.
  intros Dl. induction fuel as [|fuel IH]; intros nr w f s L B R; [lia|].
  cbn [write_loop]. erewrite bind_eq by reflexivity.
  destruct (clock h (ticks s) - st <? maxDuration) eqn:C1.
  2:{ eexists. exists (tick s). split; [reflexivity | exact R]. }
  assert (B1 : (ticks s < N)%nat).
  { destruct (Nat.eq_dec (ticks s) N) as [Eq|]; [|lia].
    rewrite Eq in C1. apply Z.ltb_lt in C1. lia. }
  destruct (make_values_total chunkSize [] (tick s)) as (vs & s1 & E1 & F1 & T1 & D1).
  rewrite (bind_eq _ _ _ _ _ E1).
  assert (R1 : ready s1).
  { destruct R as (D & T). split; [rewrite D1 | rewrite F1]; assumption. }
  assert (Ec : forall s, ready s -> db_run_control s = Return tt s).
  { intros s0 (D0 & _). unfold db_run_control. destruct (db s0); congruence. }
  rewrite (bind_eq _ _ _ _ _ (Ec s1 R1)).
  destruct (insert_values_total vs ts nr w f s1 R1) as ([[nr2 w2] f2] & s2 & E2 & R2 & T2).
  rewrite (bind_eq _ _ _ _ _ E2). cbv beta iota.
  rewrite (bind_eq _ _ _ _ _ (Ec s2 R2)).
  erewrite bind_eq by reflexivity.
  destruct (maxDuration <=? clock h (ticks s2) - st) eqn:C2.
  { eexists. exists (tick s2). split; [reflexivity | exact R2]. }
  assert (T2' : ticks s2 = S (ticks s)).
  { rewrite T2, T1. reflexivity. }
  assert (B2 : (S (ticks s) < N)%nat).
  { destruct (Nat.eq_dec (S (ticks s)) N) as [Eq|]; [|lia].
    rewrite T2', Eq in C2. apply Z.leb_gt in C2. lia. }
  apply IH; [cbn [ticks tick]; lia | cbn [ticks tick]; lia | exact R2].
Qed.

Lemma read_sample_total ids s :
  ready s ->
  exists s', read_sample ids s = Return tt s' /\ ready s' /\ ticks s' = ticks s.
Proof.
  revert s. induction ids as [|i ids IH]; intros s R; cbn [read_sample].
  - exists s. auto.
  - destruct (selectStmt_get_eq i s (proj2 R)) as (x & E).
    rewrite (bind_eq _ _ _ _ _ E).
    destruct (IH (log (SelectComment i) s) R) as (s' & E' & R' & T').
    exists s'. auto.
Qed.

End Variant.

Lemma ready_same s s' : db s' = db s -> file s' = file s -> ready s -> ready s'.
Proof. unfold ready. now intros -> ->. Qed.

Lemma variant_runTest_table h e fuel s r s' :
  Sqlite3Variant.runTest h e fuel s = Return r s' -> comments (file s) <> None.
Proof.
  unfold Sqlite3Variant.runTest. intros E.
  bind_inv_as E ? E1. apply Date_now_Return in E1 as (_ & ->).
  bind_inv_as E ? E2. apply Date_now_Return in E2 as (_ & ->).
  bind_inv_as E ? E3. apply Date_now_Return in E3 as (_ & ->).
  bind_inv_as E ? E4. unfold db_prepare in E4.
  cbn [db file tick table_exists] in E4.
  destruct (db s); [|discriminate].
  destruct (comments (file s)); [discriminate | discriminate].
Qed.

(** X12 ([runTest] of the sqlite3 variant, [src/unnamed/part_000] lines
    53-128). After a run that returns, the comments table holds exactly the
    rows it held before that are neither of the run's session nor older
    than 600 seconds at the clock reading of line 112, unchanged and in
    their order: every row the run wrote is gone. [total] is the count
    taken before that cleanup: the earlier rows and the run's writes. *)
Theorem variant_cleanup_keeps_recent_rows (h : Host)
    (e : Sqlite3Variant.Engine) (fuel : nat) (s s' : State)
    (r : Sqlite3Variant.Result) (l : list Comment) :
  Sqlite3Variant.runTest h e fuel s = Return r s' ->
  comments (file s) = Some l ->
  comments (file s')
  = Some (filter
            (fun row =>
               negb (String.eqb (test_session row)
                       (session_tag (clock h (S (ticks s))))
                     || (timestamp row
                         <? Math_floor (seconds (clock h (ticks s' - 2))) - 600)))
            l)
  /\ Sqlite3Variant.total r = Z.of_nat (List.length l) + Sqlite3Variant.writes r.
Proof.
  intros E Ec.
  destruct (variant_runTest_Return h e _ l fuel s r s' E eq_refl Ec)
    as (f & k & sorted & rt & _ & _ & _ & _ & Tot & _ & _ & _ & K).
  split; [exact K | exact Tot].
Qed.

Lemma variant_cleanup_keeps_recent_rows_witness :
  comments (file variant_state)
  = Some [ {| id := 7; author := "bob"; content := "second";
              test_session := "test_old"; timestamp := 900 |} ]
  /\ Sqlite3Variant.total variant_result = 2 + 7.
Proof.
  apply (variant_cleanup_keeps_recent_rows host_1s
           Sqlite3Variant.engine_every_third 50 aged_state variant_state
           variant_result aged_rows).
  - vm_compute. reflexivity.
  - reflexivity.
Defined.



(** X14 ([runTest] of the sqlite3 variant, lines 92-127). A run in which
    no insert succeeded still returns a result, but not every rate in it is
    a number: [reads] is 0, [readsPerSecond] is [NaN] (a product with 0/0
    or of 0 and an infinity), and [failureRate] is [NaN] when no call was
    made and [Infinity] when calls were rejected. *)
Theorem variant_rates_without_writes (h : Host) (e : Sqlite3Variant.Engine)
    (fuel : nat) (s s' : State) (r : Sqlite3Variant.Result) :
  Sqlite3Variant.runTest h e fuel s = Return r s' ->
  Sqlite3Variant.writes r = 0 ->
  Sqlite3Variant.reads r = 0
  /\ Sqlite3Variant.readsPerSecond r = NaN
  /\ (Sqlite3Variant.failureRate r = NaN
      \/ Sqlite3Variant.failureRate r = Infinity).
Proof.
  intros E W0. pose proof (variant_runTest_table _ _ _ _ _ _ E) as T.
  destruct (comments (file s)) as [l|] eqn:Ec; [|congruence].
  destruct (variant_runTest_Return h e _ l fuel s r s' E eq_refl Ec)
    as (f & k & sorted & rt & _ & F & _ & Rd & _ & Fr & Rs & _).
  rewrite W0 in Rd, Fr. change (Z.min 10000 0) with 0 in Rd.
  rewrite Rd in Rs. splits.
  - exact Rd.
  - rewrite Rs. unfold div.
    change (Qeq_bool (inject_Z 0) 0) with true. cbv iota.
    destruct (Qeq_bool rt 0) eqn:Hrt; [reflexivity|].
    destruct (Qeq_bool (inject_Z (Z.of_nat (List.length sorted))) 0);
      [reflexivity|].
    assert (Z0 : Qeq_bool (inject_Z 0 / rt) 0 = true).
    { apply Qeq_bool_iff. unfold Qdiv. apply Qmult_0_l. }
    unfold signed_inf. destruct (Qneg _); unfold mul; rewrite Z0; reflexivity.
  - rewrite Fr.
    assert (N : Qneg (inject_Z f) = false).
    { unfold Qneg. cbn [Qnum inject_Z]. apply Z.ltb_ge. exact F. }
    assert (D0 : div (Num (inject_Z f)) (Num (inject_Z 0)) = NaN
                 \/ div (Num (inject_Z f)) (Num (inject_Z 0)) = Infinity).
    { unfold div. change (Qeq_bool (inject_Z 0) 0) with true. cbv iota.
      destruct (Qeq_bool (inject_Z f) 0); [left; reflexivity|].
      right. rewrite N. reflexivity. }
    destruct D0 as [-> | ->]; [left | right]; reflexivity.
Qed.

Lemma variant_rates_without_writes_witness :
  Sqlite3Variant.reads rejected_result = 0
  /\ Sqlite3Variant.readsPerSecond rejected_result = NaN
  /\ (Sqlite3Variant.failureRate rejected_result = NaN
      \/ Sqlite3Variant.failureRate rejected_result = Infinity).
Proof.
  apply (variant_rates_without_writes host_1s Sqlite3Variant.engine_rejecting
           50 aged_state rejected_state rejected_result).
  - vm_compute. reflexivity.
  - reflexivity.
Defined.

(** X15 ([runTest] of the sqlite3 variant, lines 53-128). On an opened
    database that has the comments table the run returns, whatever calls
    of [stmt.run] are rejected and whatever the sort does: a failed insert
    never makes the run throw. It needs the clock to be 5000 ms past the
    run's start at some reading [N] from the loop's first on; as many
    rounds of the write loop as there are readings up to [N] are enough. *)
Theorem variant_run_returns (h : Host) (e : Sqlite3Variant.Engine)
    (s : State) (N : nat) :
  ready s ->
  (ticks s + 3 <= N)%nat ->
  Sqlite3Variant.maxDuration <= clock h N - clock h (ticks s) ->
  exists r s', Sqlite3Variant.runTest h e (N - ticks s) s = Return r s'.
Proof.
  intros R B Dl. unfold Sqlite3Variant.runTest.
  erewrite bind_eq by reflexivity.
  erewrite bind_eq by reflexivity.
  erewrite bind_eq by reflexivity.
  assert (P : forall s0, ready s0 -> db_prepare CommentsT s0 = Return tt s0).
  { intros s0 (D0 & T0). unfold db_prepare. cbn [table_exists].
    destruct (db s0); [|congruence]. destruct (comments (file s0)); congruence. }
  assert (R3 : ready (tick (tick (tick s)))) by exact R.
  rewrite (bind_eq _ _ _ _ _ (P _ R3)).
  destruct (variant_write_loop_total h e
              (session_tag (clock h (ticks (tick s)))) N (clock h (ticks s))
              (Math_floor (seconds (clock h (ticks (tick (tick s)))))) Dl
              (N - ticks s)%nat [] 0 0 (tick (tick (tick s))))
    as ([[nr w] f] & s1 & E1 & R1); [cbn [ticks tick]; lia .. | exact R3 |].
  rewrite (bind_eq _ _ _ _ _ E1). cbv beta iota.
  erewrite bind_eq by reflexivity.
  erewrite bind_eq by reflexivity.
  unfold Sqlite3Variant.sort_randomly at 1. unfold bind at 1.
  destruct (Sqlite3Variant.sort_random e _ nr) as [sorted drawn].
  destruct (draw_n_frame drawn (tick (tick s1))) as (Fd & Td & Dd).
  assert (R2 : ready (Sqlite3Variant.draw_n drawn (tick (tick s1)))).
  { apply (ready_same (tick (tick s1))); [exact Dd | exact Fd | exact R1]. }
  rewrite (bind_eq _ _ _ _ _ (P _ R2)).
  destruct (read_sample_total
              (firstn (Z.to_nat (Z.min 10000 (Z.of_nat (List.length nr)))) sorted)
              _ R2) as (s3 & E3 & R3' & T3).
  rewrite (bind_eq _ _ _ _ _ E3).
  erewrite bind_eq by reflexivity.
  destruct R3' as (D3 & C3).
  destruct (db s3) as [c|] eqn:Edb; [|congruence].
  destruct (comments (file s3)) as [rows|] eqn:Erows; [|congruence].
  erewrite bind_eq
    by (unfold Sqlite3Variant.count_comments; cbn [db file tick];
        rewrite Edb, Erows; reflexivity).
  erewrite bind_eq by reflexivity.
  erewrite bind_eq by reflexivity.
  erewrite bind_eq
    by (unfold Sqlite3Variant.delete_session_or_old; cbn [db file tick];
        rewrite Edb, Erows; reflexivity).
  erewrite bind_eq by reflexivity.
  eexists. eexists. reflexivity.
Qed.

Lemma variant_run_returns_witness :
  exists r s',
    Sqlite3Variant.runTest host_1s Sqlite3Variant.engine_rejecting
      (1005 - ticks aged_state) aged_state = Return r s'.
Proof.
  apply (variant_run_returns host_1s Sqlite3Variant.engine_rejecting
           aged_state 1005).
  - split; discriminate.
  - cbn [ticks aged_state]. lia.
  - vm_compute. discriminate.
Defined.
